(** * Dashboard Educacional ES: the data-preparation pipeline of [app_big.py]

    The development embeds the parts of the Streamlit script that carry
    logic of their own: the warehouse access ([run_query]), the join issued
    by [load_and_prepare_data] together with the numeric coercion and the
    renaming that follow it, the municipality filter ([df_filtrado]), the
    KPI expressions of the infrastructure page, the colour rule of the map
    ([get_color]) and the guards of the page sections.

    Conventions of the embedding.
    - A pandas [DataFrame] is a header (column labels, in order) and a list
      of rows, each row a list of cells read positionally against the
      header.
    - A cell is null (Python [None] or a NaN of a numeric column), an
      integer of an integer column, a value of a float64 column written as
      a rational, or a text.
    - Column arithmetic ([sum], [mean], the KPI quotients) is binary64
      arithmetic, carried out on the kernel's primitive floats: a float64
      cell enters it as the binary64 quotient of its numerator by its
      denominator, an integer as the binary64 nearest to it; the sum of an
      integer column is exact and wraps at 64 bits.  The order in which
      numpy adds the values of a float64 column is a parameter
      [float64_sum] of the indicators; the page sections use numpy's
      pairwise summation for it.
      An integer column may hold nulls (the nullable integer columns the
      warehouse client gives for INT64 fields).
    - A plotly express figure checks the columns it is given by name
      ([px_figure]): a name that is no column of its frame raises
      [ValueError].
    - The map scores fed to [get_color] are binary64 floats too.
    - Python exceptions are values of [exn]; a statement that may raise and
      that writes to the page is a computation in the monad [M]. *)

From Stdlib Require Import List String Ascii Bool ZArith QArith Lia Lqa.
From Stdlib Require Import Permutation Sorted.
From Stdlib Require Import Floats DecimalString.
Import ListNotations.

Set Warnings "-inexact-float".
Open Scope string_scope.
Open Scope list_scope.

(* ------------------------------------------------------------------ *)
(** ** Python exceptions and the script monad                          *)
(* ------------------------------------------------------------------ *)

Module Py.

(** The exception classes the script can meet.  [KeyboardInterrupt]
    derives from [BaseException] only, so [except Exception] lets it
    through. *)
Inductive exn : Type :=
| KeyError (key : string)
| TypeError (what : string)
| ValueError (what : string)
| NetworkError
| AuthError
| BadRequest
| KeyboardInterrupt.

Definition is_Exception (e : exn) : bool :=
  match e with
  | KeyboardInterrupt => false
  | _ => true
  end.

Inductive result (A : Type) : Type :=
| Ok (a : A)
| Raise (e : exn).
Arguments Ok {A} a.
Arguments Raise {A} e.

Definition rbind {A B} (r : result A) (k : A -> result B) : result B :=
  match r with
  | Ok a => k a
  | Raise e => Raise e
  end.

Definition rmap {A B} (f : A -> B) (r : result A) : result B :=
  rbind r (fun a => Ok (f a)).

End Py.
Export Py.

Declare Scope py_scope.
Delimit Scope py_scope with py.
Notation "x <- r ;; k" := (rbind r (fun x => k))
  (at level 61, r at next level, right associativity) : py_scope.

(* ------------------------------------------------------------------ *)
(** ** Cells and frames                                                *)
(* ------------------------------------------------------------------ *)

Module Frame.

Inductive cell : Type :=
| Null
| Int (z : Z)
| Float (q : Q)
| Str (s : string).

Definition Series := list cell.

Record DataFrame : Type := mkFrame {
  columns : list string;
  rows : list (list cell)
}.

(** [pd.DataFrame()] *)
Definition empty_frame : DataFrame := mkFrame [] [].

(** [df.empty]: some axis has length zero. *)
Definition empty (df : DataFrame) : bool :=
  match columns df, rows df with
  | [], _ => true
  | _, [] => true
  | _, _ => false
  end.

Definition len (df : DataFrame) : nat := List.length (rows df).

(** Position of the first column carrying a label. *)
Fixpoint index_of (label : string) (header : list string) : option nat :=
  match header with
  | [] => None
  | h :: t => if String.eqb label h then Some O
              else option_map S (index_of label t)
  end.

(** [col in df.columns] *)
Definition has_column (df : DataFrame) (label : string) : bool :=
  existsb (String.eqb label) (columns df).

Definition at_pos (i : nat) (r : list cell) : cell := nth i r Null.

(** [df[label]]: the column as a series; [KeyError] when the label is
    not in the header. *)
Definition get_col (df : DataFrame) (label : string) : result Series :=
  match index_of label (columns df) with
  | Some i => Ok (map (at_pos i) (rows df))
  | None => Raise (KeyError label)
  end.

(** The value of a row in a column, null when the column is absent. *)
Definition field (header : list string) (label : string) (r : list cell) : cell :=
  match index_of label header with
  | Some i => at_pos i r
  | None => Null
  end.

(** [pd.isnull] on a cell. *)
Definition isnull (c : cell) : bool :=
  match c with
  | Null => true
  | _ => false
  end.

(** The number a numeric cell stands for. *)
Definition number_of (c : cell) : option Q :=
  match c with
  | Int z => Some (inject_Z z)
  | Float q => Some q
  | _ => None
  end.

(** A cell of a numeric column: a number or a NaN. *)
Definition is_numeric (c : cell) : bool :=
  match c with
  | Str _ => false
  | _ => true
  end.

(** [series.isin(values)] for a list of texts. *)
Definition isin (values : list string) (c : cell) : bool :=
  match c with
  | Str s => existsb (String.eqb s) values
  | _ => false
  end.

(** [df[mask]] with the mask computed row by row from one column. *)
Definition select_rows (df : DataFrame) (label : string) (p : cell -> bool)
  : result DataFrame :=
  match index_of label (columns df) with
  | Some i => Ok (mkFrame (columns df) (filter (fun r => p (at_pos i r)) (rows df)))
  | None => Raise (KeyError label)
  end.

End Frame.
Export Frame.

(* ------------------------------------------------------------------ *)
(** ** Series arithmetic, sorting and selection                        *)
(* ------------------------------------------------------------------ *)

Module Pandas.

(** A number the script holds: an integer (an [int64] of numpy, or the
    Python literal [0]) or a [float64]. *)
Inductive scalar : Type :=
| SInt (z : Z)
| SFloat (f : float).

(** The binary64 an integer converts to (to nearest, ties to even). *)
Definition Z2float (z : Z) : float :=
  SF2Prim (binary_normalize prec emax z 0 false).

(** The binary64 a float64 cell holds: the binary64 quotient of the
    numerator by the denominator of the rational it is written as.  This
    is the number itself when the rational is a binary64 value, and the
    binary64 nearest to it when numerator and denominator are below 2^53,
    as for the decimal values of the warehouse. *)
Definition Q2float (q : Q) : float :=
  (Z2float (Qnum q) / Z2float (Zpos (Qden q)))%float.

(** The value of a sum that leaves the range of [int64]. *)
Definition wrap64 (z : Z) : Z := ((z + 2 ^ 63) mod 2 ^ 64 - 2 ^ 63)%Z.

Definition is_text (c : cell) : bool :=
  match c with
  | Str _ => true
  | _ => false
  end.

(** A value of a float64 column.  A column with such a value is a float64
    column; a column of integers and nulls only is an integer column. *)
Definition is_float (c : cell) : bool :=
  match c with
  | Float _ => true
  | _ => false
  end.

(** The integers of an integer column, the nulls skipped. *)
Definition ints_of (s : Series) : list Z :=
  flat_map (fun c => match c with
                     | Int z => [z]
                     | _ => []
                     end) s.

(** The binary64 value numpy adds for a cell of a float64 column; the
    reductions of pandas put 0 in the place of a null before they add. *)
Definition cell_float (c : cell) : float :=
  match c with
  | Int z => Z2float z
  | Float q => Q2float q
  | _ => 0%float
  end.

(** The number of non-null cells. *)
Definition count_non_null (s : Series) : nat :=
  List.length (filter (fun c => negb (isnull c)) s).

Section Reductions.

(** numpy's sum of an array of binary64 values, with the order and the
    grouping in which numpy adds them. *)
Variable float64_sum : list float -> float.

(** [series.sum()], nulls skipped.  Summing texts with numbers, or
    comparing the outcome with a number, raises [TypeError]; the model
    raises when the column holds a text. *)
Definition series_sum (s : Series) : result scalar :=
  if existsb is_text s then Raise (TypeError "unsupported operand type(s)")
  else if existsb is_float s then Ok (SFloat (float64_sum (map cell_float s)))
  else Ok (SInt (wrap64 (fold_right Z.add 0%Z (ints_of s)))).

(** [series.mean()], nulls skipped: the binary64 sum divided by the count
    of the values present, NaN when none is.  The values of an integer
    column are converted before they are added. *)
Definition series_mean (s : Series) : result float :=
  if existsb is_text s then Raise (TypeError "unsupported operand type(s)")
  else if Nat.eqb (count_non_null s) 0 then Ok nan
  else Ok (float64_sum (if existsb is_float s then map cell_float s
                        else map Z2float (ints_of s))
           / Z2float (Z.of_nat (count_non_null s)))%float.

(** [df[label].sum()] and [df[label].mean()] *)
Definition col_sum (df : DataFrame) (label : string) : result scalar :=
  rbind (get_col df label) series_sum.

Definition col_mean (df : DataFrame) (label : string) : result float :=
  rbind (get_col df label) series_mean.

End Reductions.

(** numpy's pairwise summation: fewer than eight values are added from
    left to right; up to 128 values are added into eight running sums,
    which are then combined two by two, the values left over being added
    last; a longer array is cut in two near its middle, at a multiple of
    eight. *)
Definition add_from (acc : float) (l : list float) : float :=
  fold_left PrimFloat.add l acc.

Fixpoint add_blocks (fuel : nat) (r l : list float) : list float * list float :=
  match fuel with
  | O => (r, l)
  | S k =>
      if (8 <=? List.length l)%nat
      then add_blocks k (map (fun p => (fst p + snd p)%float)
                             (combine r (firstn 8 l)))
                      (skipn 8 l)
      else (r, l)
  end.

Definition combine_eight (r : list float) : float :=
  match r with
  | [r0; r1; r2; r3; r4; r5; r6; r7] =>
      (((r0 + r1) + (r2 + r3)) + ((r4 + r5) + (r6 + r7)))%float
  | _ => add_from 0%float r
  end.

Fixpoint pairwise_sum (fuel : nat) (l : list float) : float :=
  let n := List.length l in
  if (n <? 8)%nat then add_from 0%float l
  else if (n <=? 128)%nat then
    let (r, rest) := add_blocks n (firstn 8 l) (skipn 8 l) in
    add_from (combine_eight r) rest
  else
    match fuel with
    | O => add_from 0%float l
    | S k =>
        let n2 := (n / 2 - (n / 2) mod 8)%nat in
        (pairwise_sum k (firstn n2 l) + pairwise_sum k (skipn n2 l))%float
    end.

(** [numpy.add.reduce] over a float64 array: the pairwise sum added to
    the identity. *)
Definition numpy_sum (l : list float) : float :=
  (0 + pairwise_sum (List.length l) l)%float.

(** The binary64 of a numpy scalar; [x > 0]; true division (integers are
    converted, a zero divisor gives an infinity or a NaN, not an
    exception); product. *)
Definition scalar_float (x : scalar) : float :=
  match x with
  | SInt z => Z2float z
  | SFloat f => f
  end.

Definition scalar_gt0 (x : scalar) : bool :=
  match x with
  | SInt z => (0 <? z)%Z
  | SFloat f => (0 <? f)%float
  end.

Definition np_div (a b : scalar) : float :=
  (scalar_float a / scalar_float b)%float.

Definition np_mul (a b : float) : float := (a * b)%float.

(** [df[col] = f(df[col])] for an elementwise [f]. *)
Fixpoint update_at (i : nat) (f : cell -> cell) (r : list cell) {struct r}
  : list cell :=
  match r, i with
  | [], _ => []
  | c :: t, O => f c :: t
  | c :: t, S j => c :: update_at j f t
  end.

Definition apply_to_column (label : string) (f : cell -> cell) (df : DataFrame)
  : DataFrame :=
  match index_of label (columns df) with
  | Some i => mkFrame (columns df) (map (update_at i f) (rows df))
  | None => df
  end.

(** Python dictionaries with text keys and values, in insertion order. *)
Definition dict := list (string * string).

Fixpoint dict_get (d : dict) (k : string) : option string :=
  match d with
  | [] => None
  | (k', v) :: t => if String.eqb k k' then Some v else dict_get t k
  end.

Fixpoint dict_set (d : dict) (k v : string) : dict :=
  match d with
  | [] => [(k, v)]
  | (k', v') :: t => if String.eqb k k' then (k', v) :: t
                     else (k', v') :: dict_set t k v
  end.

Definition dict_keys (d : dict) : list string := map fst d.

(** [df.rename(columns=mapping)]: a label without an entry is kept. *)
Definition rename_label (mapping : dict) (label : string) : string :=
  match dict_get mapping label with
  | Some v => v
  | None => label
  end.

Definition rename (mapping : dict) (df : DataFrame) : DataFrame :=
  mkFrame (map (rename_label mapping) (columns df)) (rows df).

(** [df[[l1, ..., ln]]] *)
Fixpoint indices_of (labels header : list string) : result (list nat) :=
  match labels with
  | [] => Ok []
  | l :: t =>
      match index_of l header with
      | None => Raise (KeyError l)
      | Some i => rmap (cons i) (indices_of t header)
      end
  end.

Definition select_columns (labels : list string) (df : DataFrame)
  : result DataFrame :=
  rmap (fun idx => mkFrame labels (map (fun r => map (fun i => at_pos i r) idx) (rows df)))
       (indices_of labels (columns df)).

(** [df.dropna()] *)
Definition dropna (df : DataFrame) : DataFrame :=
  mkFrame (columns df) (filter (fun r => negb (existsb isnull r)) (rows df)).

(** Rows split by the value of their key column: the rows with a number,
    paired with it, and the rows with a null, both in their order. *)
Fixpoint split_by_key (i : nat) (rs : list (list cell))
  : result (list (Q * list cell) * list (list cell)) :=
  match rs with
  | [] => Ok ([], [])
  | r :: t =>
      match at_pos i r with
      | Str _ => Raise (TypeError "dtype object")
      | c =>
          match split_by_key i t with
          | Raise e => Raise e
          | Ok (ks, ns) =>
              Ok (match number_of c with
                  | Some q => ((q, r) :: ks, ns)
                  | None => (ks, r :: ns)
                  end)
          end
      end
  end.

(** Stable insertion sort on the keys; [first a b] tells that a row of
    key [a] may stay in front of a row of key [b]. *)
Fixpoint insert_by (first : Q -> Q -> bool) (x : Q * list cell)
         (l : list (Q * list cell)) : list (Q * list cell) :=
  match l with
  | [] => [x]
  | y :: t => if first (fst x) (fst y) then x :: y :: t
              else y :: insert_by first x t
  end.

Definition sort_by (first : Q -> Q -> bool) (l : list (Q * list cell))
  : list (Q * list cell) :=
  fold_right (insert_by first) [] l.

Definition descending (a b : Q) : bool := Qle_bool b a.
Definition ascending (a b : Q) : bool := Qle_bool a b.

(** [df.sort_values(label, ascending=...)], nulls last. *)
Definition sort_values (label : string) (first : Q -> Q -> bool) (df : DataFrame)
  : result DataFrame :=
  match index_of label (columns df) with
  | None => Raise (KeyError label)
  | Some i =>
      rmap (fun p => mkFrame (columns df) (map snd (sort_by first (fst p)) ++ snd p))
           (split_by_key i (rows df))
  end.

(** [df.nlargest(n, label)] and [df.nsmallest(n, label)]: the first [n]
    rows in the order of the key, ties in their original order
    ([keep='first']), nulls only when the numbers run out. *)
Definition nlargest (n : nat) (label : string) (df : DataFrame) : result DataFrame :=
  rmap (fun d => mkFrame (columns d) (firstn n (rows d)))
       (sort_values label descending df).

Definition nsmallest (n : nat) (label : string) (df : DataFrame) : result DataFrame :=
  rmap (fun d => mkFrame (columns d) (firstn n (rows d)))
       (sort_values label ascending df).

(** [df.drop(columns=[label], errors='ignore')] *)
Fixpoint remove_at {A} (i : nat) (l : list A) {struct l} : list A :=
  match l, i with
  | [], _ => []
  | _ :: t, O => t
  | x :: t, S j => x :: remove_at j t
  end.

Definition drop_column (label : string) (df : DataFrame) : DataFrame :=
  match index_of label (columns df) with
  | Some i => mkFrame (remove_at i (columns df)) (map (remove_at i) (rows df))
  | None => df
  end.

Section ToNumeric.

(** The text-to-number conversion of [pd.to_numeric], a function of
    pandas: [None] when the text is not a number. *)
Variable parse_number : string -> option Q.

(** [pd.to_numeric(series, errors='coerce')], cell by cell. *)
Definition to_numeric (c : cell) : cell :=
  match c with
  | Str s => match parse_number s with
             | Some q => Float q
             | None => Null
             end
  | _ => c
  end.

End ToNumeric.

End Pandas.
Export Pandas.


(* ------------------------------------------------------------------ *)
(** ** The warehouse: meaning of the join statement                    *)
(* ------------------------------------------------------------------ *)

Module Warehouse.

Section Join.

(** The text BigQuery gives to a FLOAT64 under [CAST(... AS STRING)]. *)
Variable format_float64 : Q -> string.

Definition string_of_Z (z : Z) : string := NilZero.string_of_int (Z.to_int z).

(** [CAST(x AS STRING)]; SQL NULL is [None]. *)
Definition cast_as_string (c : cell) : option string :=
  match c with
  | Null => None
  | Int z => Some (string_of_Z z)
  | Float q => Some (format_float64 q)
  | Str s => Some s
  end.

(** [a = b] holds in an [ON] clause only when both sides are non-null
    and equal. *)
Definition sql_eq (a b : option string) : bool :=
  match a, b with
  | Some x, Some y => String.eqb x y
  | _, _ => false
  end.

(** The columns taken from the census table [t2], in the order of the
    [SELECT] list. *)
Definition censo_fields : list string :=
  [ "total_estimar_escolas"; "escolas_com_internet"; "escolas_com_lab_informatica";
    "escolas_com_biblioteca"; "escolas_com_quadra_esportes";
    "escolas_com_banheiro_acessivel_pne";
    "pct_escolas_com_internet"; "alunos_por_docente"; "alunos_por_turma" ].

Definition cod_munic (header : list string) (r : list cell) : option string :=
  cast_as_string (field header "cod_munic" r).

(** [ON CAST(t1.cod_munic AS STRING) = CAST(t2.cod_munic AS STRING)] *)
Definition on_clause (h1 h2 : list string) (r1 r2 : list cell) : bool :=
  sql_eq (cod_munic h1 r1) (cod_munic h2 r2).

Definition censo_part (h2 : list string) (r2 : list cell) : list cell :=
  map (fun label => field h2 label r2) censo_fields.

Definition null_part : list cell := map (fun _ => Null) censo_fields.

(** The output rows of one row of [t1] under [LEFT JOIN]. *)
Definition joined (h1 h2 : list string) (rows2 : list (list cell)) (r1 : list cell)
  : list (list cell) :=
  match filter (on_clause h1 h2 r1) rows2 with
  | [] => [r1 ++ null_part]
  | matches => map (fun r2 => r1 ++ censo_part h2 r2) matches
  end.

(** [SELECT t1.*, t2.<censo_fields> FROM ideb AS t1 LEFT JOIN censo AS t2
    ON ...]; a column the statement names and a table lacks makes the
    statement invalid. *)
Definition ideb_left_join_censo (ideb censo : DataFrame) : result DataFrame :=
  if has_column ideb "cod_munic" && has_column censo "cod_munic"
     && forallb (has_column censo) censo_fields
  then Ok (mkFrame (columns ideb ++ censo_fields)
                   (flat_map (joined (columns ideb) (columns censo) (rows censo))
                             (rows ideb)))
  else Raise BadRequest.

End Join.

End Warehouse.
Export Warehouse.

(* ------------------------------------------------------------------ *)
(** ** The application                                                 *)
(* ------------------------------------------------------------------ *)

Module App.

(** What the script writes to the page. *)
Inductive event : Type :=
| st_error (msg : string)
| st_exception (e : exn)
| st_warning (msg : string)
| st_info (msg : string)
| st_metric (label : string) (value : scalar)
| st_plotly_chart (fig : string) (data : DataFrame)
| st_dataframe (data : DataFrame).

(** A run of script statements: what was written, and the value or the
    exception it ended with. *)
Definition M (A : Type) : Type := (list event * result A)%type.

Definition ret {A} (a : A) : M A := ([], Ok a).

Definition bind {A B} (m : M A) (k : A -> M B) : M B :=
  match m with
  | (out, Ok a) => let (out', r) := k a in (out ++ out', r)
  | (out, Raise e) => (out, Raise e)
  end.

Definition emit (ev : event) : M unit := ([ev], Ok tt).

Definition lift {A} (r : result A) : M A := ([], r).

(** [try: body  except Exception as e: handler(e)] *)
Definition try_except {A} (body : M A) (handler : exn -> M A) : M A :=
  match body with
  | (out, Raise e) =>
      if is_Exception e then let (out', r) := handler e in (out ++ out', r)
      else (out, Raise e)
  | _ => body
  end.

Declare Scope script_scope.
Delimit Scope script_scope with script.
Notation "x <- m ;; k" := (bind m (fun x => k))
  (at level 61, m at next level, right associativity) : script_scope.
Notation "m ;; k" := (bind m (fun _ => k))
  (at level 61, right associativity) : script_scope.

(** The BigQuery client: submitting a statement gives a job or fails;
    fetching the rows of a job gives a frame or fails. *)
Record Client : Type := mkClient {
  job : Type;
  query : string -> result job;
  to_dataframe : job -> result DataFrame
}.

Definition DATASET_ID := "dados_educacionais_es".
Definition IDEB_TABLE := "ideb_2023".
Definition CENSO_TABLE := "censo_2023".
Definition MAP_TABLE := "limites_municipais_es".

Definition run_query (_client : Client) (sql : string) : M DataFrame :=
  try_except
    (query_job <- lift (query _client sql) ;;
     lift (to_dataframe _client query_job))%script
    (fun e =>
       (emit (st_error "Erro ao executar a consulta no BigQuery.") ;;
        emit (st_exception e) ;;
        ret empty_frame)%script).

Definition numeric_cols : list string :=
  [ "ideb_2023"; "nota_saeb_media_2023"; "tx_aprov_2023_1_ao_5_ano";
    "total_estimar_escolas"; "escolas_com_internet"; "escolas_com_lab_informatica";
    "escolas_com_biblioteca"; "escolas_com_quadra_esportes";
    "escolas_com_banheiro_acessivel_pne"; "pct_escolas_com_internet";
    "alunos_por_docente"; "alunos_por_turma" ].

Definition friendly_names : dict :=
  [ ("nome_munic", "Município"); ("ideb_2023", "Nota IDEB 2023");
    ("nota_saeb_media_2023", "Nota Média SAEEB 2023");
    ("tx_aprov_2023_1_ao_5_ano", "Taxa de Aprovação (1º-5º ano)");
    ("total_estimar_escolas", "Total de Escolas");
    ("escolas_com_internet", "Nº Escolas c/ Internet");
    ("escolas_com_lab_informatica", "Nº Escolas c/ Lab. de Informática");
    ("escolas_com_biblioteca", "Nº Escolas c/ Biblioteca");
    ("escolas_com_quadra_esportes", "Nº Escolas c/ Quadra");
    ("escolas_com_banheiro_acessivel_pne", "Nº Escolas c/ Acessibilidade");
    ("pct_escolas_com_internet", "% Escolas com Internet");
    ("alunos_por_docente", "Média de Alunos por Docente");
    ("alunos_por_turma", "Média de Alunos por Turma") ].

(** The statement text of [load_and_prepare_data]. *)
Definition load_query (project_id dataset_id ideb_table censo_table : string) : string :=
  "
        SELECT
            t1.*,
            t2.total_estimar_escolas, t2.escolas_com_internet, t2.escolas_com_lab_informatica,
            t2.escolas_com_biblioteca, t2.escolas_com_quadra_esportes, t2.escolas_com_banheiro_acessivel_pne,
            t2.pct_escolas_com_internet, t2.alunos_por_docente, t2.alunos_por_turma
        FROM `" ++ project_id ++ "." ++ dataset_id ++ "." ++ ideb_table ++ "` AS t1
        LEFT JOIN `" ++ project_id ++ "." ++ dataset_id ++ "." ++ censo_table ++ "` AS t2
        ON CAST(t1.cod_munic AS STRING) = CAST(t2.cod_munic AS STRING)
    ".

Section Prepare.

Variable parse_number : string -> option Q.

(** One turn of the loop over [numeric_cols]. *)
Definition coerce_column (df : DataFrame) (col : string) : DataFrame :=
  if has_column df col then apply_to_column col (to_numeric parse_number) df
  else df.

Definition coerce_numeric (df : DataFrame) : DataFrame :=
  fold_left coerce_column numeric_cols df.

(** The steps of [load_and_prepare_data] after the query. *)
Definition prepare (df : DataFrame) : DataFrame :=
  rename friendly_names (coerce_numeric df).

Definition load_and_prepare_data (_client : Client)
           (project_id dataset_id ideb_table censo_table : string)
  : M (DataFrame * dict) :=
  (df <- run_query _client (load_query project_id dataset_id ideb_table censo_table) ;;
   ret (prepare df, friendly_names))%script.

End Prepare.

(** [df_completo[df_completo['Município'].isin(sel)] if sel else df_completo] *)
Definition df_filtrado (df_completo : DataFrame) (municipios_selecionados : list string)
  : result DataFrame :=
  match municipios_selecionados with
  | [] => Ok df_completo
  | _ => select_rows df_completo "Município" (isin municipios_selecionados)
  end.

(** *** The indicators of the infrastructure page *)

Section Indicators.

Variable float64_sum : list float -> float.

Definition total_escolas (df : DataFrame) : result scalar :=
  col_sum float64_sum df "Total de Escolas".

Definition avg_internet (df : DataFrame) : result float :=
  col_mean float64_sum df "% Escolas com Internet".

(** [(df[label].sum() / total_escolas) * 100 if total_escolas > 0 else 0] *)
Definition pct_of_total (df : DataFrame) (label : string) (total_escolas : scalar)
  : result scalar :=
  if scalar_gt0 total_escolas
  then rbind (col_sum float64_sum df label)
             (fun s => Ok (SFloat (np_mul (np_div s total_escolas) 100)))
  else Ok (SInt 0).

Definition avg_lab (df : DataFrame) : result scalar :=
  rbind (total_escolas df) (pct_of_total df "Nº Escolas c/ Lab. de Informática").

Definition avg_quadra (df : DataFrame) : result scalar :=
  rbind (total_escolas df) (pct_of_total df "Nº Escolas c/ Quadra").

Definition avg_acessibilidade (df : DataFrame) : result scalar :=
  rbind (total_escolas df) (pct_of_total df "Nº Escolas c/ Acessibilidade").

End Indicators.

(** *** The colour rule of the map *)

Definition get_color (nota : float) : list Z :=
  if PrimFloat.is_nan nota then [200; 200; 200; 100]%Z
  else if (nota <? 5.8)%float then [220; 53; 69; 160]%Z
  else if (nota <? 6.5)%float then [255; 193; 7; 160]%Z
  else [40; 167; 69; 160]%Z.

(** The colours by the names the script and its legend give them:
    "Baixo" (danger), "Medio" (neutral), "Alto" (success). *)
Definition cor_baixo : list Z := [220; 53; 69; 160]%Z.
Definition cor_medio : list Z := [255; 193; 7; 160]%Z.
Definition cor_alto : list Z := [40; 167; 69; 160]%Z.
Definition cor_nulo : list Z := [200; 200; 200; 100]%Z.

(** *** Reverse lookup of the correlation page *)

(** [{v: k for k, v in d.items() if k in allowed}] *)
Definition invert_where (allowed : list string) (d : dict) : dict :=
  fold_left (fun acc kv =>
               if existsb (String.eqb (fst kv)) allowed
               then dict_set acc (snd kv) (fst kv)
               else acc)
            d [].

Definition opcoes_correlacao : dict :=
  invert_where
    [ "pct_escolas_com_internet"; "alunos_por_turma"; "alunos_por_docente";
      "tx_aprov_2023_1_ao_5_ano" ]
    friendly_names.

(** [d[k]] *)
Definition dict_item (d : dict) (k : string) : result string :=
  match dict_get d k with
  | Some v => Ok v
  | None => Raise (KeyError k)
  end.

(** *** The page sections that read the joined dataset *)

(** [df.set_index(label)]: the column becomes the index, shown first. *)
Definition set_index (label : string) (df : DataFrame) : result DataFrame :=
  match index_of label (columns df) with
  | None => Raise (KeyError label)
  | Some i =>
      Ok (mkFrame (label :: remove_at i (columns df))
                  (map (fun r => at_pos i r :: remove_at i r) (rows df)))
  end.

(** A plotly express figure ([px.bar], [px.histogram], [px.scatter]) is
    given a frame and the names of the columns it draws; a name that is
    no column of the frame raises [ValueError]. *)
Fixpoint px_figure (data : DataFrame) (named : list string) : result unit :=
  match named with
  | [] => Ok tt
  | name :: rest =>
      if has_column data name then px_figure data rest
      else Raise (ValueError name)
  end.

Open Scope script_scope.

(** Section 'Visão Geral', the two rankings under the map. *)
Definition visao_geral_ranking (df_filtrado : DataFrame) : M unit :=
  df_top5 <- lift (nlargest 5 "Nota IDEB 2023" df_filtrado) ;;
  fig_top5 <- lift (sort_values "Nota IDEB 2023" ascending df_top5) ;;
  lift (px_figure fig_top5 ["Nota IDEB 2023"; "Município"]) ;;
  emit (st_plotly_chart "fig_top5" fig_top5) ;;
  df_bottom5 <- lift (nsmallest 5 "Nota IDEB 2023" df_filtrado) ;;
  fig_bottom5 <- lift (sort_values "Nota IDEB 2023" descending df_bottom5) ;;
  lift (px_figure fig_bottom5 ["Nota IDEB 2023"; "Município"]) ;;
  emit (st_plotly_chart "fig_bottom5" fig_bottom5).

(** Section 'Análise de Infraestrutura'. *)
Definition analise_infraestrutura (float64_sum : list float -> float)
           (df_filtrado : DataFrame) : M unit :=
  if negb (empty df_filtrado) then
    _ <- lift (total_escolas float64_sum df_filtrado) ;;
    internet <- lift (avg_internet float64_sum df_filtrado) ;;
    lab <- lift (avg_lab float64_sum df_filtrado) ;;
    quadra <- lift (avg_quadra float64_sum df_filtrado) ;;
    acessibilidade <- lift (avg_acessibilidade float64_sum df_filtrado) ;;
    emit (st_metric "% Escolas com Internet" (SFloat internet)) ;;
    emit (st_metric "% com Lab. Informática" lab) ;;
    emit (st_metric "% com Quadra Esportiva" quadra) ;;
    emit (st_metric "% com Acessibilidade" acessibilidade) ;;
    lift (px_figure df_filtrado ["Média de Alunos por Turma"]) ;;
    emit (st_plotly_chart "Distribuição de Alunos por Turma" df_filtrado) ;;
    lift (px_figure df_filtrado ["% Escolas com Internet"]) ;;
    emit (st_plotly_chart "Distribuição de % de Escolas com Internet" df_filtrado)
  else
    emit (st_warning "Nenhum dado disponível para os municípios selecionados.").

(** Section 'Análise de Correlação', the scatter plot of the chosen
    indicator against the IDEB score (the heat map under it, a correlation
    matrix of the library behind the same emptiness test, is not
    embedded). *)
Definition analise_correlacao (df_filtrado : DataFrame)
           (indicador_selecionado_friendly : string) : M unit :=
  if negb (empty df_filtrado) && negb (indicador_selecionado_friendly =? "")%string then
    ideb <- lift (dict_item friendly_names "ideb_2023") ;;
    df_chart <- lift (rmap dropna
                        (select_columns [ideb; indicador_selecionado_friendly]
                                        df_filtrado)) ;;
    lift (px_figure df_chart [indicador_selecionado_friendly; ideb]) ;;
    emit (st_plotly_chart "scatter" df_chart)
  else
    emit (st_warning "Selecione um município para visualizar a correlação.").

(** Section 'Análise Comparativa'. *)
Definition analise_comparativa (df_filtrado : DataFrame)
           (municipios_selecionados : list string)
           (indicador_comp_selecionado : string) : M unit :=
  if (List.length municipios_selecionados <? 2)%nat then
    emit (st_info "ℹ️ Por favor, selecione pelo menos dois municípios no filtro da barra lateral para ativar a comparação.")
  else
    df_comp <- lift (rbind (rmap dropna
                              (select_columns ["Município"; indicador_comp_selecionado]
                                              df_filtrado))
                           (sort_values indicador_comp_selecionado descending)) ;;
    lift (px_figure df_comp ["Município"; indicador_comp_selecionado]) ;;
    emit (st_plotly_chart "comparativo" df_comp).

(** Section 'Dados Detalhados'. *)
Definition dados_detalhados (df_filtrado : DataFrame) : M unit :=
  if negb (empty df_filtrado) then
    df_to_display <- lift (set_index "Município" (drop_column "cod_munic" df_filtrado)) ;;
    emit (st_dataframe df_to_display)
  else
    emit (st_info "ℹ️ Selecione um ou mais municípios no filtro da barra lateral para ver os dados detalhados.").

Inductive secao : Type :=
| VisaoGeral
| AnaliseInfraestrutura
| AnaliseCorrelacao (indicador : string)
| AnaliseComparativa (indicador : string)
| DadosDetalhados.

Definition render (s : secao) (df_filtrado : DataFrame)
           (municipios_selecionados : list string) : M unit :=
  match s with
  | VisaoGeral => visao_geral_ranking df_filtrado
  | AnaliseInfraestrutura => analise_infraestrutura numpy_sum df_filtrado
  | AnaliseCorrelacao ind => analise_correlacao df_filtrado ind
  | AnaliseComparativa ind =>
      analise_comparativa df_filtrado municipios_selecionados ind
  | DadosDetalhados => dados_detalhados df_filtrado
  end.

(** One run of the script: load, take the selection of the side bar (the
    names of the dataset are offered; none is, and a warning is shown,
    when the dataset is empty), filter, render the chosen section. *)
Definition script (parse_number : string -> option Q) (client : Client)
           (PROJECT_ID : string) (selecao : list string) (s : secao) : M unit :=
  loaded <- load_and_prepare_data parse_number client PROJECT_ID
                                  DATASET_ID IDEB_TABLE CENSO_TABLE ;;
  let df_completo := fst loaded in
  municipios_selecionados <-
    (if negb (empty df_completo) then
       _ <- lift (get_col df_completo "Município") ;;
       ret selecao
     else
       emit (st_warning "Não foi possível carregar a lista de municípios.") ;;
       ret []) ;;
  df <- lift (df_filtrado df_completo municipios_selecionados) ;;
  render s df municipios_selecionados.

Close Scope script_scope.

End App.
Export App.


(* ------------------------------------------------------------------ *)
(** ** Vocabulary of the statements                                    *)
(* ------------------------------------------------------------------ *)

Module Vocabulary.

(** The municipality names of a frame, row by row. *)
Definition municipios (df : DataFrame) : list cell :=
  map (field (columns df) "Município") (rows df).

(** A column is present and holds numbers and nulls only. *)
Definition numeric_column (df : DataFrame) (label : string) : bool :=
  match get_col df label with
  | Ok s => forallb is_numeric s
  | Raise _ => false
  end.

(** Every number of a column is non-negative (the school counts of the
    data model are). *)
Definition nonneg_column (df : DataFrame) (label : string) : bool :=
  match get_col df label with
  | Ok s => forallb (fun c => match number_of c with
                              | Some q => Qle_bool 0 q
                              | None => true
                              end) s
  | Raise _ => false
  end.

(** Every cell of a column is null. *)
Definition null_column (df : DataFrame) (label : string) : bool :=
  match get_col df label with
  | Ok s => forallb isnull s
  | Raise _ => false
  end.

(** The three facility indicators with the count column each one reads. *)
Definition facility_kpis
  : list (string * ((list float -> float) -> DataFrame -> result scalar)) :=
  [ ("Nº Escolas c/ Lab. de Informática", avg_lab);
    ("Nº Escolas c/ Quadra", avg_quadra);
    ("Nº Escolas c/ Acessibilidade", avg_acessibilidade) ].



(** The ratio of sums the facility indicators use, applied to the count of
    schools with internet; the script does not compute it. *)
Definition weighted_internet (float64_sum : list float -> float) (df : DataFrame)
  : result scalar :=
  rbind (total_escolas float64_sum df)
        (pct_of_total float64_sum df "Nº Escolas c/ Internet").

(** The internal identifiers the correlation page admits. *)
Definition indicadores_correlacao : list string :=
  [ "pct_escolas_com_internet"; "alunos_por_turma"; "alunos_por_docente";
    "tx_aprov_2023_1_ao_5_ano" ].

(** The warehouse call of [run_query] fails with [e]: at the submission
    of the statement or at the fetch of its rows. *)
Definition fails_with (client : Client) (sql : string) (e : exn) : Prop :=
  query client sql = Raise e \/
  exists j, query client sql = Ok j /\ to_dataframe client j = Raise e.

Definition succeeds_with (client : Client) (sql : string) (df : DataFrame) : Prop :=
  exists j, query client sql = Ok j /\ to_dataframe client j = Ok df.

(** What one turn of the coercion loop does to a row. *)
Definition coerce_in_row (parse_number : string -> option Q)
           (header : list string) (r : list cell) (col : string) : list cell :=
  match index_of col header with
  | Some i => update_at i (to_numeric parse_number) r
  | None => r
  end.

(** Column [col] stands at position [i] of the header. *)
Definition stands_at (header : list string) (i : nat) (col : string) : bool :=
  match index_of col header with
  | Some j => Nat.eqb j i
  | None => false
  end.

(** The reverse map of the whole catalog: the dictionary the correlation
    page builds from the catalog, with every identifier admitted. *)
Definition reverse_catalog : dict :=
  invert_where (dict_keys friendly_names) friendly_names.

(** The text a municipality code is compared as: the decimal writing of
    an integer, a text as it is, nothing for a null. *)
Definition code_text (format_float64 : Q -> string) (c : cell) : option string :=
  match c with
  | Null => None
  | Int z => Some (NilZero.string_of_int (Z.to_int z))
  | Float q => Some (format_float64 q)
  | Str s => Some s
  end.

(** The nine infrastructure fields of the dataset, in their order. *)
Definition infra_fields : list string :=
  [ "total_estimar_escolas"; "escolas_com_internet"; "escolas_com_lab_informatica";
    "escolas_com_biblioteca"; "escolas_com_quadra_esportes";
    "escolas_com_banheiro_acessivel_pne";
    "pct_escolas_com_internet"; "alunos_por_docente"; "alunos_por_turma" ].

(** A performance row and a census row carry the same municipality code,
    both codes taken as text. *)
Definition same_code (format_float64 : Q -> string) (ideb censo : DataFrame)
           (r1 r2 : list cell) : Prop :=
  exists k,
    code_text format_float64 (field (columns ideb) "cod_munic" r1) = Some k /\
    code_text format_float64 (field (columns censo) "cod_munic" r2) = Some k.

(** What a performance row is to be followed by in the joined dataset: the
    nine fields of a census row of the same code, read from that row
    under their names, or nine nulls when no census row has that code. *)
Definition attached (format_float64 : Q -> string) (ideb censo : DataFrame)
           (r1 infra : list cell) : Prop :=
  (exists r2,
     In r2 (rows censo) /\
     same_code format_float64 ideb censo r1 r2 /\
     infra = map (fun label => field (columns censo) label r2) infra_fields)
  \/
  ((forall r2, In r2 (rows censo) -> ~ same_code format_float64 ideb censo r1 r2) /\
   infra = [Null; Null; Null; Null; Null; Null; Null; Null; Null]).

(** The municipality codes of the census table, as texts, row by row. *)
Definition census_codes (format_float64 : Q -> string) (censo : DataFrame)
  : list string :=
  flat_map (fun r2 =>
              match code_text format_float64 (field (columns censo) "cod_munic" r2) with
              | Some k => [k]
              | None => []
              end)
           (rows censo).

(** The non-null join keys of the census table, row by row. *)
Fixpoint present_keys (keys : list (option string)) : list string :=
  match keys with
  | [] => []
  | Some k :: t => k :: present_keys t
  | None :: t => present_keys t
  end.

Definition censo_keys (format_float64 : Q -> string) (censo : DataFrame) : list string :=
  present_keys (map (cod_munic format_float64 (columns censo)) (rows censo)).

End Vocabulary.
Export Vocabulary.

(* ------------------------------------------------------------------ *)
(** ** Sample data                                                     *)
(* ------------------------------------------------------------------ *)

Module Samples.

(** A warehouse that cannot be reached. *)
Definition offline_client : Client :=
  mkClient unit (fun _ => Raise NetworkError) (fun _ => Ok empty_frame).

(** A conversion that reads no text as a number. *)
Definition no_parse (s : string) : option Q := None.

(** A conversion that reads the decimal integers. *)
Definition parse_integer (s : string) : option Q :=
  option_map (fun d => inject_Z (Z.of_int d)) (NilEmpty.int_of_string s).

Definition sample_base : DataFrame :=
  mkFrame ["Município"; "Total de Escolas"]
          [ [Str "Vitória"; Int 10]; [Str "Serra"; Int 7] ].

(** Two municipalities, the second without schools. *)
Definition sample_view : DataFrame :=
  mkFrame [ "Município"; "Total de Escolas"; "Nº Escolas c/ Internet";
            "Nº Escolas c/ Lab. de Informática"; "Nº Escolas c/ Quadra";
            "Nº Escolas c/ Acessibilidade"; "% Escolas com Internet" ]
          [ [Str "A"; Int 10; Int 5; Int 5; Int 4; Int 3; Float 50];
            [Str "B"; Int 0; Int 0; Int 0; Int 0; Int 0; Null] ].

(** Two municipalities of unequal size. *)
Definition sample_unequal : DataFrame :=
  mkFrame [ "Município"; "Total de Escolas"; "Nº Escolas c/ Internet";
            "% Escolas com Internet" ]
          [ [Str "A"; Int 10; Int 5; Float 50];
            [Str "B"; Int 90; Int 90; Float 100] ].

(** A performance table keyed by integers and a census table keyed by
    texts; the second municipality has no census row. *)
Definition sample_ideb : DataFrame :=
  mkFrame ["cod_munic"; "nome_munic"; "ideb_2023"]
          [ [Int 3205309; Str "Vitória"; Float (61 # 10)];
            [Int 3205002; Str "Serra"; Float (58 # 10)] ].

Definition sample_censo : DataFrame :=
  mkFrame ("cod_munic" :: censo_fields)
          [ [Str "3205309"; Int 10; Int 5; Int 5; Int 4; Int 4; Int 3;
             Float 50; Float 20; Float 25] ].

End Samples.
Export Samples.

(* ------------------------------------------------------------------ *)
(** ** The map of section 'Visão Geral'                                *)
(* ------------------------------------------------------------------ *)

Module MapView.

(** A row of [df_mapa]: the name, the boundary as text and the score of a
    municipality.  The score column is a float64 column, its nulls are
    NaN; the other two hold a text or [None]. *)
Record linha_mapa : Type := mkLinha {
  municipio : option string;
  geometry : option string;
  nota_ideb : float
}.

(** [df_mapa.dropna(subset=['geometry', 'nota_ideb'], inplace=True)] *)
Definition dropna_mapa (df_mapa : list linha_mapa) : list linha_mapa :=
  filter (fun r => match geometry r with
                   | Some _ => negb (PrimFloat.is_nan (nota_ideb r))
                   | None => false
                   end)
         df_mapa.

(** [df_mapa['cor'] = df_mapa['nota_ideb'].apply(get_color)], on the rows
    the [dropna] before it keeps. *)
Definition cor_column (df_mapa : list linha_mapa) : list (list Z) :=
  map (fun r => get_color (nota_ideb r)) (dropna_mapa df_mapa).

End MapView.
Export MapView.

(* ------------------------------------------------------------------ *)
(** ** Further vocabulary                                              *)
(* ------------------------------------------------------------------ *)

Module MoreVocabulary.

(** A cell may stand before another in an ordering of the numbers by
    [rel] that puts the nulls last. *)
Definition stands_before (rel : Q -> Q -> Prop) (c c' : cell) : Prop :=
  match number_of c, number_of c' with
  | Some a, Some b => rel a b
  | _, None => True
  | None, Some _ => False
  end.

(** Descending and ascending order of the numbers. *)
Definition Qge_rel (a b : Q) : Prop := b <= a.
Definition Qle_rel (a b : Q) : Prop := a <= b.


End MoreVocabulary.
Export MoreVocabulary.

Module MoreSamples.

(** Four municipalities with their scores, one of them without a score. *)
Definition sample_scores : DataFrame :=
  mkFrame ["Município"; "Nota IDEB 2023"]
          [ [Str "A"; Float (58 # 10)]; [Str "B"; Null];
            [Str "C"; Float (65 # 10)]; [Str "D"; Float (52 # 10)] ].


(** The view of the infrastructure page with every column it reads. *)
Definition sample_infra : DataFrame :=
  mkFrame [ "Município"; "Total de Escolas"; "Nº Escolas c/ Lab. de Informática";
            "Nº Escolas c/ Quadra"; "Nº Escolas c/ Acessibilidade";
            "% Escolas com Internet"; "Média de Alunos por Turma" ]
          [ [Str "A"; Int 10; Int 5; Int 4; Int 3; Float 50; Float 25];
            [Str "B"; Int 0; Int 0; Int 0; Int 0; Null; Null] ].

End MoreSamples.
Export MoreSamples.

(* ------------------------------------------------------------------ *)
(** ** Filter and subset projection                                    *)
(* ------------------------------------------------------------------ *)

Module FilterFacts.

Lemma index_of_has_column (df : DataFrame) (label : string) :
  has_column df label = true -> exists i, index_of label (columns df) = Some i.
Proof.
  unfold has_column. induction (columns df) as [|h t IH]; simpl.
  - discriminate.
  - destruct (String.eqb label h).
    + intros _. now exists O.
    + simpl. intros H. destruct (IH H) as [i Hi]. rewrite Hi. now exists (S i).
Qed.

Lemma has_column_index_of (df : DataFrame) (label : string) (i : nat) :
  index_of label (columns df) = Some i -> has_column df label = true.
Proof.
  unfold has_column. revert i. induction (columns df) as [|h t IH]; simpl.
  - discriminate.
  - intros i. destruct (String.eqb label h); [reflexivity|].
    simpl. destruct (index_of label t) as [k|]; [|discriminate].
    intros _. now apply (IH k).
Qed.

Lemma filter_absent {A} (key : A -> cell) (x : cell) (test : cell -> bool) (l : list A) :
  (forall c, test c = true <-> c = x) ->
  ~ In x (map key l) -> filter (fun r => test (key r)) l = [].
Proof.
  intros Htest. induction l as [|b l IH]; simpl; intros Hnotin; [reflexivity|].
  destruct (test (key b)) eqn:Hb.
  - apply Htest in Hb. exfalso. apply Hnotin. now left.
  - apply IH. intros H. apply Hnotin. now right.
Qed.

(** A key that occurs once selects one element. *)
Lemma filter_unique {A} (key : A -> cell) (x : cell) (test : cell -> bool) (l : list A) :
  (forall c, test c = true <-> c = x) ->
  NoDup (map key l) -> In x (map key l) ->
  exists a, filter (fun r => test (key r)) l = [a] /\ key a = x /\ In a l.
Proof.
  intros Htest. induction l as [|a l IH]; simpl; intros Hnd Hin.
  - contradiction.
  - inversion Hnd as [|? ? Hnotin Hnd']; subst.
    destruct (test (key a)) eqn:Ha.
    + apply Htest in Ha. exists a. split; [|auto].
      f_equal. rewrite Ha in Hnotin.
      now apply filter_absent with (x := x).
    + destruct Hin as [Hin|Hin].
      * apply Htest in Hin. congruence.
      * destruct (IH Hnd' Hin) as [b [Hf [Hk Hb]]].
        exists b. auto.
Qed.

Lemma isin_single (name : string) (c : cell) :
  isin [name] c = true <-> c = Str name.
Proof.
  destruct c; simpl; try (split; [discriminate|intros H; discriminate H]).
  rewrite orb_false_r, String.eqb_eq. split; [now intros ->|].
  intros H. now injection H.
Qed.

(** C4. The filtered view: with an empty selection it is the base dataset
    itself (same rows, same row count); with a non-empty selection it
    holds exactly the rows of the base dataset whose municipality name is
    one of the selected names, in their order; and when names are unique
    in the dataset, selecting one of its names gives exactly one row, the
    one carrying that name. *)
Theorem df_filtrado_spec (df_completo : DataFrame) (sel : list string) :
  (sel = [] ->
     df_filtrado df_completo sel = Ok df_completo) /\
  (sel <> [] -> has_column df_completo "Município" = true ->
     exists v,
       df_filtrado df_completo sel = Ok v /\
       columns v = columns df_completo /\
       rows v = filter (fun r => isin sel (field (columns df_completo) "Município" r))
                       (rows df_completo) /\
       (forall r, In r (rows v) <->
                  In r (rows df_completo) /\
                  exists name, field (columns df_completo) "Município" r = Str name
                               /\ In name sel)) /\
  (forall name,
     has_column df_completo "Município" = true ->
     NoDup (municipios df_completo) ->
     In (Str name) (municipios df_completo) ->
     exists r,
       df_filtrado df_completo [name] = Ok (mkFrame (columns df_completo) [r]) /\
       field (columns df_completo) "Município" r = Str name /\
       In r (rows df_completo)).
Proof.
  split; [|split].
  - intros ->. reflexivity.
  - intros Hsel Hcol.
    destruct (index_of_has_column _ _ Hcol) as [i Hi].
    destruct sel as [|s sel']; [congruence|].
    unfold df_filtrado, select_rows, field. rewrite Hi.
    eexists. split; [reflexivity|]. simpl. split; [reflexivity|]. split; [reflexivity|].
    intros r. rewrite filter_In. split.
    + intros [Hin Hp]. split; [assumption|].
      destruct (at_pos i r) as [| | |name]; cbn [isin] in Hp; try discriminate.
      exists name. split; [reflexivity|].
      apply existsb_exists in Hp. destruct Hp as [x [Hx Hxe]].
      apply String.eqb_eq in Hxe. now subst.
    + intros [Hin [name [Hname Hmem]]]. split; [assumption|].
      rewrite Hname. cbn [isin]. apply existsb_exists. exists name.
      split; [assumption|apply String.eqb_refl].
  - intros name Hcol Hnd Hin.
    destruct (index_of_has_column _ _ Hcol) as [i Hi].
    unfold municipios, field in *. rewrite Hi in *.
    destruct (filter_unique (at_pos i) (Str name) (isin [name]) (rows df_completo)
                            (isin_single name) Hnd Hin) as [a [Hf [Hk Ha]]].
    exists a. unfold df_filtrado, select_rows. rewrite Hi, Hf. auto.
Qed.

Lemma df_filtrado_spec_witness :
  exists r,
    df_filtrado sample_base ["Serra"] = Ok (mkFrame (columns sample_base) [r]) /\
    field (columns sample_base) "Município" r = Str "Serra" /\
    In r (rows sample_base).
Proof.
  apply (proj2 (proj2 (df_filtrado_spec sample_base []))).
  - reflexivity.
  - repeat constructor; simpl; intuition discriminate.
  - simpl. right. left. reflexivity.
Defined.

End FilterFacts.

(* ------------------------------------------------------------------ *)
(** ** The colour rule on binary64 scores                              *)
(* ------------------------------------------------------------------ *)

Module ColorFacts.

(** Order facts on the specification floats, for thresholds sharing an
    exponent. *)
Section Thresholds.

Variables (m1 m2 : positive) (e : Z).
Hypothesis m1_lt_m2 : (m1 < m2)%positive.

Let lo := S754_finite false m1 e.
Let hi := S754_finite false m2 e.

Lemma SFcompare_refl (s : spec_float) :
  s <> S754_nan -> SFcompare s s = Some Eq.
Proof.
  destruct s as [sg|sg| |sg m x]; simpl; intros H; try congruence.
  - now destruct sg.
  - rewrite Z.compare_refl, Pos.compare_cont_refl. now destruct sg.
Qed.

Lemma SFleb_below (s : spec_float) :
  SFleb s lo = true -> SFltb s hi = true.
Proof.
  unfold SFleb, SFltb, lo, hi.
  destruct s as [sg|sg| |sg m x]; simpl; try discriminate; try (now destruct sg).
  destruct sg; [reflexivity|].
  destruct (Z.compare_spec x e); try discriminate; try reflexivity.
  change (Pos.compare_cont Eq m m1) with (m ?= m1)%positive.
  change (Pos.compare_cont Eq m m2) with (m ?= m2)%positive.
  destruct (Pos.compare_spec m m1); try discriminate; intros _.
  - subst. now rewrite (proj2 (Pos.compare_lt_iff _ _) m1_lt_m2).
  - assert (Hlt : (m < m2)%positive) by lia.
    now rewrite (proj2 (Pos.compare_lt_iff _ _) Hlt).
Qed.

Lemma SFleb_not_below (s : spec_float) :
  SFleb hi s = true -> SFltb s lo = false.
Proof.
  unfold SFleb, SFltb, lo, hi.
  destruct s as [sg|sg| |sg m x]; simpl; try discriminate; try (now destruct sg).
  destruct sg; [discriminate|].
  rewrite (Z.compare_antisym x e).
  destruct (Z.compare_spec x e); simpl; try discriminate; try reflexivity.
  change (Pos.compare_cont Eq m2 m) with (m2 ?= m)%positive.
  change (Pos.compare_cont Eq m m1) with (m ?= m1)%positive.
  destruct (Pos.compare_spec m2 m); try discriminate; intros _.
  - subst. destruct (Pos.compare_spec m m1); try reflexivity; lia.
  - destruct (Pos.compare_spec m m1); try reflexivity; lia.
Qed.

Lemma SFleb_not_strictly_below (s : spec_float) :
  SFleb lo s = true -> SFltb s lo = false.
Proof.
  unfold SFleb, SFltb, lo.
  destruct s as [sg|sg| |sg m x]; simpl; try discriminate; try (now destruct sg).
  destruct sg; [discriminate|].
  rewrite (Z.compare_antisym x e).
  destruct (Z.compare_spec x e); simpl; try discriminate; try reflexivity.
  change (Pos.compare_cont Eq m1 m) with (m1 ?= m)%positive.
  change (Pos.compare_cont Eq m m1) with (m ?= m1)%positive.
  rewrite (Pos.compare_antisym m1 m).
  destruct (m1 ?= m)%positive; simpl; try discriminate; reflexivity.
Qed.

End Thresholds.

Lemma SFltb_left_number (a b : spec_float) :
  SFltb a b = true -> SFeqb a a = true.
Proof.
  unfold SFltb, SFeqb. intros H.
  rewrite SFcompare_refl; [reflexivity|].
  intros ->. discriminate.
Qed.

Lemma SFleb_left_number (a b : spec_float) :
  SFleb a b = true -> SFeqb a a = true.
Proof.
  unfold SFleb, SFeqb. intros H.
  rewrite SFcompare_refl; [reflexivity|].
  intros ->. discriminate.
Qed.

Lemma SFleb_right_number (a b : spec_float) :
  SFleb a b = true -> SFeqb b b = true.
Proof.
  unfold SFleb, SFeqb. intros H.
  rewrite SFcompare_refl; [reflexivity|].
  intros ->. now destruct a.
Qed.

(** The binary64 values of the literals of the rule. *)
Lemma Prim2SF_5_8 : Prim2SF 5.8 = S754_finite false 6530219459687219 (-50).
Proof. vm_compute. reflexivity. Qed.

Lemma Prim2SF_6_4 : Prim2SF 6.4 = S754_finite false 7205759403792794 (-50).
Proof. vm_compute. reflexivity. Qed.

Lemma Prim2SF_6_5 : Prim2SF 6.5 = S754_finite false 7318349394477056 (-50).
Proof. vm_compute. reflexivity. Qed.

Lemma is_nan_spec (x : float) :
  PrimFloat.is_nan x = negb (SFeqb (Prim2SF x) (Prim2SF x)).
Proof. unfold PrimFloat.is_nan. now rewrite eqb_spec. Qed.

(** C5. The colour rule: a score below 5.8 is coloured low, a score from
    5.8 to 6.4 medium, a score of 6.5 or more high (comparisons of
    binary64 values, which no NaN satisfies); the scores 5.79, 5.8, 6.49,
    6.5 are coloured low, medium, medium, high. *)
Theorem get_color_buckets :
  (forall nota : float,
     ((nota <? 5.8)%float = true -> get_color nota = cor_baixo) /\
     ((5.8 <=? nota)%float = true -> (nota <=? 6.4)%float = true ->
        get_color nota = cor_medio) /\
     ((6.5 <=? nota)%float = true -> get_color nota = cor_alto)) /\
  map get_color [5.79; 5.8; 6.49; 6.5]%float
    = [cor_baixo; cor_medio; cor_medio; cor_alto].
Proof.
  split; [|vm_compute; reflexivity].
  intros nota. unfold get_color. rewrite is_nan_spec, !ltb_spec, !leb_spec.
  rewrite Prim2SF_5_8, Prim2SF_6_4, Prim2SF_6_5.
  generalize (Prim2SF nota). intros s.
  split; [|split].
  - intros Hlt. rewrite (SFltb_left_number _ _ Hlt), Hlt. reflexivity.
  - intros Hge Hle.
    rewrite (SFleb_right_number _ _ Hge).
    rewrite (SFleb_not_strictly_below _ _ _ Hge).
    rewrite (SFleb_below 7205759403792794 7318349394477056 (-50));
      [reflexivity|lia|exact Hle].
  - intros Hge.
    rewrite (SFleb_right_number _ _ Hge).
    rewrite (SFleb_not_below 6530219459687219 7318349394477056 (-50));
      [|lia|exact Hge].
    rewrite (SFleb_not_strictly_below _ _ _ Hge). reflexivity.
Qed.

Lemma get_color_buckets_witness :
  get_color 5.2%float = cor_baixo /\
  get_color 6.1%float = cor_medio /\
  get_color 7.3%float = cor_alto.
Proof.
  split; [|split].
  - apply (proj1 (proj1 get_color_buckets 5.2%float)). vm_compute. reflexivity.
  - apply (proj1 (proj2 (proj1 get_color_buckets 6.1%float))); vm_compute; reflexivity.
  - apply (proj2 (proj2 (proj1 get_color_buckets 7.3%float))). vm_compute. reflexivity.
Defined.

End ColorFacts.

(* ------------------------------------------------------------------ *)
(** ** Warehouse access                                                *)
(* ------------------------------------------------------------------ *)

Module QueryFacts.

Lemma run_query_except (client : Client) (sql : string) (e : exn) :
  fails_with client sql e -> is_Exception e = true ->
  run_query client sql
  = ([st_error "Erro ao executar a consulta no BigQuery."; st_exception e],
     Ok empty_frame).
Proof.
  intros [Hq|[j [Hq Hd]]] He; unfold run_query, try_except, bind, lift;
    rewrite Hq; [|rewrite Hd]; simpl; rewrite He; reflexivity.
Qed.

Lemma run_query_passes (client : Client) (sql : string) (e : exn) :
  fails_with client sql e -> is_Exception e = false ->
  run_query client sql = ([], Raise e).
Proof.
  intros [Hq|[j [Hq Hd]]] He; unfold run_query, try_except, bind, lift;
    rewrite Hq; [|rewrite Hd]; simpl; rewrite He; reflexivity.
Qed.

(** C7. When the warehouse call fails with a network, an authentication
    or a malformed-statement error, at the submission or at the fetch,
    [run_query] reports it on the page and returns the empty frame: no
    exception reaches the caller.  When the call succeeds, it returns the
    rows the warehouse gave, and writes nothing. *)
Theorem run_query_spec (client : Client) (sql : string) :
  (forall e,
     fails_with client sql e ->
     In e [NetworkError; AuthError; BadRequest] ->
     run_query client sql
     = ([st_error "Erro ao executar a consulta no BigQuery."; st_exception e],
        Ok empty_frame)
     /\ empty empty_frame = true) /\
  (forall df,
     succeeds_with client sql df ->
     run_query client sql = ([], Ok df)).
Proof.
  split.
  - intros e Hfail Hin. split; [|reflexivity].
    apply run_query_except; [assumption|].
    simpl in Hin. destruct Hin as [<-|[<-|[<-|[]]]]; reflexivity.
  - intros df [j [Hq Hd]]. unfold run_query, try_except, bind, lift.
    rewrite Hq, Hd. reflexivity.
Qed.

Lemma run_query_spec_witness :
  run_query offline_client "SELECT 1"
  = ([st_error "Erro ao executar a consulta no BigQuery.";
      st_exception NetworkError],
     Ok empty_frame)
  /\ empty empty_frame = true.
Proof.
  apply (proj1 (run_query_spec offline_client "SELECT 1") NetworkError).
  - left. reflexivity.
  - simpl. tauto.
Defined.

End QueryFacts.

(* ------------------------------------------------------------------ *)
(** ** Emptiness guards of the page sections                           *)
(* ------------------------------------------------------------------ *)

Module GuardFacts.

Lemma prepare_empty (parse_number : string -> option Q) :
  prepare parse_number empty_frame = empty_frame.
Proof. reflexivity. Qed.

(** With the dataset unavailable, the script reaches every section with
    the empty frame and an empty selection. *)
Lemma script_unavailable (parse_number : string -> option Q) (client : Client)
      (PROJECT_ID : string) (selecao : list string) (s : secao) (e : exn) :
  fails_with client (load_query PROJECT_ID DATASET_ID IDEB_TABLE CENSO_TABLE) e ->
  is_Exception e = true ->
  script parse_number client PROJECT_ID selecao s
  = bind ([st_error "Erro ao executar a consulta no BigQuery."; st_exception e;
           st_warning "Não foi possível carregar a lista de municípios."],
          Ok tt)
         (fun _ => render s empty_frame []).
Proof.
  intros Hfail He. unfold script, load_and_prepare_data.
  rewrite (QueryFacts.run_query_except _ _ _ Hfail He).
  cbn [bind ret fst app]. rewrite prepare_empty. cbn.
  destruct (render s empty_frame []) as [out r]. destruct r; reflexivity.
Qed.

(** The sections that test [df_filtrado.empty], and the comparison
    section behind its test on the selection, write a notice and end
    normally on the empty frame. *)
Lemma guarded_sections (s : secao) :
  s <> VisaoGeral -> exists notice, render s empty_frame [] = ([notice], Ok tt).
Proof.
  destruct s; intros H; try congruence; eexists; reflexivity.
Qed.

(** C2, at the input where it fails. The warehouse cannot be reached, so
    the dataset is the empty frame; section 'Visão Geral' ranks it without
    testing it for emptiness, and the lookup of the score column raises
    [KeyError]. *)
Theorem visao_geral_ranking_unguarded :
  script no_parse offline_client "projeto" [] VisaoGeral
  = ([st_error "Erro ao executar a consulta no BigQuery.";
      st_exception NetworkError;
      st_warning "Não foi possível carregar a lista de municípios."],
     Raise (KeyError "Nota IDEB 2023")).
Proof. reflexivity. Qed.

(** The same at any failure of the load query. *)
Lemma visao_geral_ranking_raises (parse_number : string -> option Q) (client : Client)
      (PROJECT_ID : string) (selecao : list string) (e : exn) :
  fails_with client (load_query PROJECT_ID DATASET_ID IDEB_TABLE CENSO_TABLE) e ->
  is_Exception e = true ->
  snd (script parse_number client PROJECT_ID selecao VisaoGeral)
  = Raise (KeyError "Nota IDEB 2023").
Proof.
  intros Hfail He. rewrite (script_unavailable _ _ _ _ _ _ Hfail He). reflexivity.
Qed.

(** The other sections end normally there. *)
Lemma other_sections_guarded (parse_number : string -> option Q) (client : Client)
      (PROJECT_ID : string) (selecao : list string) (s : secao) (e : exn) :
  fails_with client (load_query PROJECT_ID DATASET_ID IDEB_TABLE CENSO_TABLE) e ->
  is_Exception e = true ->
  s <> VisaoGeral ->
  snd (script parse_number client PROJECT_ID selecao s) = Ok tt.
Proof.
  intros Hfail He Hs. rewrite (script_unavailable _ _ _ _ _ _ Hfail He).
  destruct (guarded_sections s Hs) as [notice ->]. reflexivity.
Qed.

End GuardFacts.

(* ------------------------------------------------------------------ *)
(** ** The field catalog                                               *)
(* ------------------------------------------------------------------ *)

Module CatalogFacts.

Ltac each_key H :=
  simpl in H;
  repeat (destruct H as [<-|H]; [|]); [..|contradiction].

(** The display labels of the catalog are pairwise distinct. *)
Lemma friendly_names_injective (k1 k2 : string) :
  In k1 (dict_keys friendly_names) -> In k2 (dict_keys friendly_names) ->
  rename_label friendly_names k1 = rename_label friendly_names k2 -> k1 = k2.
Proof.
  intros H1 H2. each_key H1; each_key H2;
    vm_compute; intros H; first [reflexivity | discriminate H].
Qed.

(** The reverse dictionary of the correlation page is the reverse map of
    the catalog cut down to the four indicators of that page. *)
Lemma opcoes_correlacao_in_reverse_catalog (label k : string) :
  dict_get opcoes_correlacao label = Some k ->
  dict_get reverse_catalog label = Some k.
Proof.
  intros H.
  let d := eval vm_compute in opcoes_correlacao in
  change opcoes_correlacao with d in H.
  cbn [dict_get] in H.
  repeat match type of H with
         | context [String.eqb label ?s] =>
             destruct (String.eqb_spec label s) as [->|_];
             [injection H as <-; vm_compute; reflexivity|]
         end.
  discriminate H.
Qed.

(** C8. For every internal identifier of the field catalog: no other
    identifier of the catalog has the same display label (the forward
    mapping is injective), and looking the display label up in the
    reverse map of the catalog gives the identifier back: the round trip
    internal, label, internal is the identity on the catalog. For the four
    indicators of the correlation page, the reverse dictionary of that
    page gives the identifier back as well. *)
Theorem friendly_names_roundtrip (k : string) :
  In k (dict_keys friendly_names) ->
  (forall k', In k' (dict_keys friendly_names) ->
              rename_label friendly_names k = rename_label friendly_names k' ->
              k = k') /\
  dict_get reverse_catalog (rename_label friendly_names k) = Some k /\
  (In k indicadores_correlacao ->
   dict_get opcoes_correlacao (rename_label friendly_names k) = Some k).
Proof.
  intros Hk. split; [|split].
  - intros k' Hk'. now apply friendly_names_injective.
  - each_key Hk; vm_compute; reflexivity.
  - intros Hi. each_key Hi; vm_compute; reflexivity.
Qed.

Lemma friendly_names_roundtrip_witness :
  In "ideb_2023" (dict_keys friendly_names) /\
  dict_get reverse_catalog (rename_label friendly_names "ideb_2023")
  = Some "ideb_2023".
Proof.
  assert (H : In "ideb_2023" (dict_keys friendly_names)) by (simpl; tauto).
  split; [exact H|].
  exact (proj1 (proj2 (friendly_names_roundtrip "ideb_2023" H))).
Defined.

End CatalogFacts.

(* ------------------------------------------------------------------ *)
(** ** The indicators of the infrastructure page                       *)
(* ------------------------------------------------------------------ *)

Module IndicatorFacts.

(** *** Lists under a change of order *)

Lemma forallb_perm {A} (f : A -> bool) (l l' : list A) :
  Permutation l l' -> forallb f l = forallb f l'.
Proof.
  induction 1; simpl; try congruence.
  destruct (f x), (f y); reflexivity.
Qed.




(** *** Columns by what they hold *)

Lemma numeric_no_text (s : Series) :
  forallb is_numeric s = true -> existsb is_text s = false.
Proof.
  induction s as [|c s IH]; simpl; [reflexivity|].
  intros H. apply andb_true_iff in H. destruct H as [Hc Hs].
  rewrite (IH Hs). destruct c; [reflexivity..|discriminate Hc].
Qed.


Lemma nulls_no_value (s : Series) :
  forallb isnull s = true ->
  existsb is_text s = false /\ existsb is_float s = false /\
  ints_of s = [] /\ count_non_null s = 0%nat.
Proof.
  unfold count_non_null.
  induction s as [|c s IH]; simpl; [repeat split; reflexivity|].
  intros H. apply andb_true_iff in H. destruct H as [Hc Hs].
  destruct (IH Hs) as [-> [-> [Hi Hn]]].
  destruct c; try discriminate Hc. simpl. auto.
Qed.



Section Sums.

Variable float64_sum : list float -> float.

(** The sum of an integer column is the exact sum of its integers,
    wrapped at 64 bits. *)
Lemma series_sum_integer (s : Series) :
  existsb is_text s = false -> existsb is_float s = false ->
  series_sum float64_sum s = Ok (SInt (wrap64 (fold_right Z.add 0%Z (ints_of s)))).
Proof. intros Ht Hf. unfold series_sum. now rewrite Ht, Hf. Qed.



(** The sum of a column of numbers and nulls raises nothing. *)
Lemma col_sum_numeric (df : DataFrame) (label : string) :
  numeric_column df label = true ->
  exists x, col_sum float64_sum df label = Ok x.
Proof.
  unfold numeric_column, col_sum.
  destruct (get_col df label) as [s|e]; [|discriminate].
  intros H. cbn [rbind]. unfold series_sum.
  rewrite (numeric_no_text _ H).
  destruct (existsb is_float s); eexists; reflexivity.
Qed.


(** Each facility indicator is the total of the schools passed to the
    quotient of its own count column. *)
Lemma facility_kpi_unfold (label : string)
      (kpi : (list float -> float) -> DataFrame -> result scalar) (df : DataFrame) :
  In (label, kpi) facility_kpis ->
  kpi float64_sum df
  = rbind (total_escolas float64_sum df) (pct_of_total float64_sum df label).
Proof.
  intros Hin. simpl in Hin.
  destruct Hin as [Heq|[Heq|[Heq|[]]]]; injection Heq as <- <-; reflexivity.
Qed.

(** Over columns of numbers and nulls a facility indicator raises
    nothing. *)
Lemma facility_kpi_returns (label : string)
      (kpi : (list float -> float) -> DataFrame -> result scalar) (df : DataFrame) :
  In (label, kpi) facility_kpis ->
  numeric_column df "Total de Escolas" = true ->
  numeric_column df label = true ->
  exists v, kpi float64_sum df = Ok v.
Proof.
  intros Hin Htot Hlab. rewrite (facility_kpi_unfold label kpi df Hin).
  unfold total_escolas.
  destruct (col_sum_numeric df _ Htot) as [escolas ->].
  destruct (col_sum_numeric df _ Hlab) as [com Hc].
  cbn [rbind]. unfold pct_of_total. rewrite Hc.
  destruct (scalar_gt0 escolas); eexists; reflexivity.
Qed.

(** The mean of a column of numbers and nulls raises nothing. *)
Lemma col_mean_numeric (df : DataFrame) (label : string) :
  numeric_column df label = true ->
  exists v, col_mean float64_sum df label = Ok v.
Proof.
  unfold numeric_column, col_mean.
  destruct (get_col df label) as [s|e]; [|discriminate].
  intros H. cbn [rbind]. unfold series_mean.
  rewrite (numeric_no_text _ H).
  destruct (Nat.eqb (count_non_null s) 0); eexists; reflexivity.
Qed.

End Sums.

(** *** The facility percentages *)



(** The quotient and the product are rounded: 29 schools with a lab out
    of 100 give 28.999999999999996. *)
Example avg_lab_rounds :
  avg_lab numpy_sum
          (mkFrame [ "Total de Escolas"; "Nº Escolas c/ Lab. de Informática" ]
                   [ [Int 29; Int 10]; [Int 71; Int 19] ])
  = Ok (SFloat 28.999999999999996).
Proof. vm_compute. reflexivity. Qed.

(** Sums beyond the binary64 range: the total is an infinity, which is
    above zero, and the percentage is a NaN. *)
Example avg_lab_overflows :
  avg_lab numpy_sum
          (mkFrame [ "Total de Escolas"; "Nº Escolas c/ Lab. de Informática" ]
                   [ [Float (inject_Z (10 ^ 308)); Float (inject_Z (10 ^ 308))];
                     [Float (inject_Z (10 ^ 308)); Float (inject_Z (10 ^ 308))] ])
  = Ok (SFloat nan).
Proof. vm_compute. reflexivity. Qed.

(** *** The order of the rows *)


(** The same with whole numbers held in float64 columns, once a sum
    passes 2^53. *)
Example facility_kpi_order_dependent_whole :
  let header := [ "Total de Escolas"; "Nº Escolas c/ Lab. de Informática" ] in
  let big := Float (inject_Z (2 ^ 53)) in
  avg_lab numpy_sum (mkFrame header [ [Int 1; big]; [Int 1; Float 1]; [Int 1; Float 1] ])
  = Ok (SFloat 3.00239975158033e+17) /\
  avg_lab numpy_sum (mkFrame header [ [Int 1; Float 1]; [Int 1; Float 1]; [Int 1; big] ])
  = Ok (SFloat 3.0023997515803315e+17).
Proof. split; vm_compute; reflexivity. Qed.



(** *** The internet indicator *)

(** C10. The internet indicator is the plain mean of the percentages of
    the view, nulls left out, in binary64 and whatever the order in which
    numpy adds: the sum of the column (a null counting for 0 in a float64
    column, the integers of an integer column converted) divided by the
    number of the percentages present.  When none is present, as over a
    view with rows whose percentages are all null, the indicator is NaN,
    which is not 0.  It is not the ratio of sums of the facility
    indicators: over two municipalities of 10 and 90 schools with 50 and
    100 percent of them connected, the mean is 75 and the ratio of sums
    is 95. *)
Theorem avg_internet_spec :
  (forall (float64_sum : list float -> float) (df : DataFrame),
     numeric_column df "% Escolas com Internet" = true ->
     exists s,
       get_col df "% Escolas com Internet" = Ok s /\
       let n := List.length (filter (fun c => negb (isnull c)) s) in
       (n = 0%nat -> avg_internet float64_sum df = Ok nan) /\
       (n <> 0%nat -> existsb is_float s = true ->
        avg_internet float64_sum df
        = Ok (float64_sum (map cell_float s) / Z2float (Z.of_nat n))%float) /\
       (n <> 0%nat -> existsb is_float s = false ->
        avg_internet float64_sum df
        = Ok (float64_sum (map Z2float (ints_of s)) / Z2float (Z.of_nat n))%float) /\
       (null_column df "% Escolas com Internet" = true ->
        avg_internet float64_sum df = Ok nan)) /\
  (nan =? 0)%float = false /\
  avg_internet numpy_sum sample_unequal = Ok 75%float /\
  weighted_internet numpy_sum sample_unequal = Ok (SFloat 95).
Proof.
  split; [|split; [reflexivity|split; vm_compute; reflexivity]].
  intros float64_sum df Hnum.
  unfold avg_internet, col_mean, null_column.
  unfold numeric_column in Hnum.
  destruct (get_col df "% Escolas com Internet") as [s|e]; [|discriminate Hnum].
  exists s. split; [reflexivity|]. cbn [rbind]. cbv zeta.
  unfold series_mean. rewrite (numeric_no_text _ Hnum).
  fold (count_non_null s).
  split; [|split; [|split]].
  - intros ->. reflexivity.
  - intros Hn Hf. apply Nat.eqb_neq in Hn. now rewrite Hn, Hf.
  - intros Hn Hf. apply Nat.eqb_neq in Hn. now rewrite Hn, Hf.
  - intros Hnull. destruct (nulls_no_value _ Hnull) as [_ [_ [_ ->]]].
    reflexivity.
Qed.

Lemma avg_internet_spec_witness :
  avg_internet numpy_sum
               (mkFrame (columns sample_view)
                        [[Str "B"; Int 0; Int 0; Int 0; Int 0; Int 0; Null]])
  = Ok nan /\
  avg_internet numpy_sum sample_view = Ok 50%float.
Proof.
  split.
  - destruct (proj1 avg_internet_spec numpy_sum
                    (mkFrame (columns sample_view)
                             [[Str "B"; Int 0; Int 0; Int 0; Int 0; Int 0; Null]])
                    eq_refl) as [s [_ [_ [_ [_ H]]]]].
    apply H. reflexivity.
  - destruct (proj1 avg_internet_spec numpy_sum sample_view eq_refl)
      as [s [Hs [_ [H _]]]].
    vm_compute in Hs. injection Hs as <-.
    rewrite H; [vm_compute; reflexivity|discriminate|reflexivity].
Defined.

(** The mean is rounded, and in the order of the rows: the percentages
    0.1, 0.2 and 0.3 have the mean 0.20000000000000004 in this order and
    0.19999999999999998 in the reverse order. *)
Example avg_internet_rounds :
  avg_internet numpy_sum
               (mkFrame [ "% Escolas com Internet" ]
                        [ [Float (1 # 10)]; [Float (2 # 10)]; [Float (3 # 10)] ])
  = Ok 0.20000000000000004%float /\
  avg_internet numpy_sum
               (mkFrame [ "% Escolas com Internet" ]
                        [ [Float (3 # 10)]; [Float (2 # 10)]; [Float (1 # 10)] ])
  = Ok 0.19999999999999998%float.
Proof. split; vm_compute; reflexivity. Qed.

End IndicatorFacts.

(* ------------------------------------------------------------------ *)
(** ** Type coercion and renaming                                      *)
(* ------------------------------------------------------------------ *)

Module CoercionFacts.

Section Coercion.

Variable parse_number : string -> option Q.

Let f := to_numeric parse_number.

Lemma to_numeric_idempotent (c : cell) : f (f c) = f c.
Proof.
  unfold f. destruct c as [| | |s]; simpl; try reflexivity.
  destruct (parse_number s); reflexivity.
Qed.

Lemma at_pos_update_at (i k : nat) (r : list cell) :
  at_pos k (update_at i f r) = if Nat.eqb i k then f (at_pos k r) else at_pos k r.
Proof.
  unfold at_pos. revert i k. induction r as [|c r IH]; intros i k.
  - unfold f. simpl. destruct k; destruct (Nat.eqb i _); reflexivity.
  - destruct i as [|i], k as [|k]; simpl; try reflexivity.
    apply IH.
Qed.

Lemma index_of_has_column_false (df : DataFrame) (col : string) :
  has_column df col = false -> index_of col (columns df) = None.
Proof.
  intros H. destruct (index_of col (columns df)) as [i|] eqn:E; [|reflexivity].
  rewrite (FilterFacts.has_column_index_of _ _ _ E) in H. discriminate.
Qed.

Lemma coerce_column_columns (df : DataFrame) (col : string) :
  columns (coerce_column parse_number df col) = columns df.
Proof.
  unfold coerce_column, apply_to_column.
  destruct (has_column df col); [|reflexivity].
  destruct (index_of col (columns df)); reflexivity.
Qed.

Lemma coerce_column_rows (df : DataFrame) (col : string) :
  rows (coerce_column parse_number df col)
  = map (fun r => coerce_in_row parse_number (columns df) r col) (rows df).
Proof.
  unfold coerce_column, apply_to_column, coerce_in_row.
  destruct (has_column df col) eqn:E.
  - destruct (index_of col (columns df)); [reflexivity|].
    symmetry. apply map_id.
  - rewrite (index_of_has_column_false _ _ E). symmetry. apply map_id.
Qed.

Lemma coerce_fold (cols : list string) (df : DataFrame) :
  columns (fold_left (coerce_column parse_number) cols df) = columns df /\
  rows (fold_left (coerce_column parse_number) cols df)
  = map (fun r => fold_left (coerce_in_row parse_number (columns df)) cols r) (rows df).
Proof.
  revert df. induction cols as [|c cols IH]; intros df; simpl.
  - split; [reflexivity|]. symmetry. apply map_id.
  - destruct (IH (coerce_column parse_number df c)) as [Hc Hr].
    rewrite Hc, Hr, coerce_column_columns, coerce_column_rows, map_map.
    split; reflexivity.
Qed.

Lemma at_pos_coerce_fold (header : list string) (cols : list string)
      (r : list cell) (i : nat) :
  at_pos i (fold_left (coerce_in_row parse_number header) cols r)
  = if existsb (stands_at header i) cols then f (at_pos i r) else at_pos i r.
Proof.
  revert r. induction cols as [|c cols IH]; intros r; simpl; [reflexivity|].
  rewrite IH. unfold coerce_in_row, stands_at at 2.
  destruct (index_of c header) as [j|]; simpl; [|reflexivity].
  rewrite at_pos_update_at.
  destruct (Nat.eqb j i); simpl; [|reflexivity].
  rewrite to_numeric_idempotent.
  destruct (existsb (stands_at header i) cols); reflexivity.
Qed.

Lemma index_of_label (header : list string) (a b : string) (i : nat) :
  index_of a header = Some i -> index_of b header = Some i -> a = b.
Proof.
  revert i. induction header as [|h t IH]; intros i; simpl; [discriminate|].
  destruct (String.eqb a h) eqn:Ea, (String.eqb b h) eqn:Eb.
  - apply String.eqb_eq in Ea, Eb. congruence.
  - intros H. injection H as <-.
    destruct (index_of b t); simpl; discriminate.
  - destruct (index_of a t); simpl; [|discriminate].
    intros H1 H2. congruence.
  - destruct (index_of a t) as [x|]; [|discriminate].
    destruct (index_of b t) as [y|]; [|discriminate].
    simpl. intros H1 H2. apply (IH x); [reflexivity|]. congruence.
Qed.

Lemma stands_at_label (header : list string) (label : string) (i : nat)
      (cols : list string) :
  index_of label header = Some i ->
  existsb (stands_at header i) cols = existsb (String.eqb label) cols.
Proof.
  intros Hi. induction cols as [|c cols IH]; simpl; [reflexivity|].
  rewrite IH. f_equal. unfold stands_at.
  destruct (index_of c header) as [j|] eqn:Ej.
  - destruct (Nat.eqb j i) eqn:E.
    + apply Nat.eqb_eq in E. subst j.
      rewrite (index_of_label _ _ _ _ Ej Hi). symmetry. apply String.eqb_refl.
    + destruct (String.eqb label c) eqn:El; [|reflexivity].
      apply String.eqb_eq in El. subst c.
      rewrite Hi in Ej. injection Ej as <-. now rewrite Nat.eqb_refl in E.
  - destruct (String.eqb label c) eqn:El; [|reflexivity].
    apply String.eqb_eq in El. subst c. congruence.
Qed.

Lemma field_coerce_fold (header : list string) (cols : list string)
      (r : list cell) (label : string) :
  field header label (fold_left (coerce_in_row parse_number header) cols r)
  = if existsb (String.eqb label) cols then f (field header label r)
    else field header label r.
Proof.
  unfold field. destruct (index_of label header) as [i|] eqn:Hi.
  - rewrite at_pos_coerce_fold. now rewrite (stands_at_label _ _ _ cols Hi).
  - destruct (existsb (String.eqb label) cols); reflexivity.
Qed.

Lemma coerce_fold_nil (header : list string) (cols : list string) :
  fold_left (coerce_in_row parse_number header) cols [] = [].
Proof.
  induction cols as [|c cols IH]; simpl; [reflexivity|].
  unfold coerce_in_row at 2. destruct (index_of c header) as [i|]; exact IH.
Qed.

(** C6. The coercion turns every value of the listed fields into a number
    or, when the conversion fails, into null; it keeps every row and the
    header, leaves the fields outside the list as they are, and cannot
    raise; [load_and_prepare_data] applies it to the rows of the query
    first and renames the fields afterwards. *)
Theorem coercion_spec (df : DataFrame) :
  let df' := coerce_numeric parse_number df in
  columns df' = columns df /\
  List.length (rows df') = List.length (rows df) /\
  (forall n label,
     field (columns df) label (nth n (rows df') [])
     = if existsb (String.eqb label) numeric_cols
       then to_numeric parse_number (field (columns df) label (nth n (rows df) []))
       else field (columns df) label (nth n (rows df) [])) /\
  (forall s, parse_number s = None -> to_numeric parse_number (Str s) = Null) /\
  (forall s q, parse_number s = Some q -> to_numeric parse_number (Str s) = Float q) /\
  (forall c, is_numeric c = true -> to_numeric parse_number c = c) /\
  prepare parse_number df = rename friendly_names df' /\
  (forall client project_id dataset_id ideb_table censo_table,
     snd (load_and_prepare_data parse_number client project_id dataset_id
                                ideb_table censo_table)
     = rmap (fun raw => (rename friendly_names (coerce_numeric parse_number raw),
                         friendly_names))
            (snd (run_query client
                            (load_query project_id dataset_id ideb_table censo_table)))).
Proof.
  intros df'. subst df'. unfold coerce_numeric.
  destruct (coerce_fold numeric_cols df) as [Hc Hr].
  split; [exact Hc|]. split; [now rewrite Hr, length_map|].
  split.
  { intros n label. rewrite Hr.
    rewrite <- (coerce_fold_nil (columns df) numeric_cols) at 1.
    rewrite (map_nth (fun r => fold_left (coerce_in_row parse_number (columns df)) numeric_cols r)).
    apply field_coerce_fold. }
  split; [intros s H; simpl; now rewrite H|].
  split; [intros s q H; simpl; now rewrite H|].
  split; [intros c H; destruct c; [reflexivity..|simpl in H; discriminate H]|].
  split; [reflexivity|].
  intros client p d i c. unfold load_and_prepare_data.
  destruct (run_query client (load_query p d i c)) as [out [raw|e]]; reflexivity.
Qed.

End Coercion.

(** Renaming first would leave the listed fields as they came: the list
    names them by their internal identifiers. *)
Example coercion_after_renaming_misses :
  let raw := mkFrame ["ideb_2023"] [[Str "5.8"]; [Str "n/d"]] in
  rows (prepare parse_integer (mkFrame ["ideb_2023"] [[Str "58"]; [Str "n/d"]]))
  = [[Float 58]; [Null]] /\
  rows (coerce_numeric parse_integer (rename friendly_names raw)) = rows raw.
Proof. split; reflexivity. Qed.

End CoercionFacts.

(* ------------------------------------------------------------------ *)
(** ** The dataset join                                                *)
(* ------------------------------------------------------------------ *)

Module JoinFacts.

Section Join.

Variable format_float64 : Q -> string.

Let key := cod_munic format_float64.

Lemma sql_eq_true (a b : option string) :
  sql_eq a b = true <-> exists k, a = Some k /\ b = Some k.
Proof.
  destruct a as [x|], b as [y|]; simpl;
    try (split; [discriminate|intros [k [H1 H2]]; discriminate]).
  rewrite String.eqb_eq. split.
  - intros ->. now exists y.
  - intros [k [H1 H2]]. congruence.
Qed.

Lemma no_key_no_match (h2 : list string) (k : option string)
      (rows2 : list (list cell)) :
  (forall x, k = Some x -> ~ In x (present_keys (map (key h2) rows2))) ->
  filter (fun r2 => sql_eq k (key h2 r2)) rows2 = [].
Proof.
  induction rows2 as [|r2 rows2 IH]; simpl; intros H; [reflexivity|].
  destruct (sql_eq k (key h2 r2)) eqn:E.
  - apply sql_eq_true in E. destruct E as [x [Hk Hr]].
    exfalso. apply (H x Hk). rewrite Hr. now left.
  - apply IH. intros x Hk Hin. apply (H x Hk).
    destruct (key h2 r2); [now right|exact Hin].
Qed.

(** With distinct census keys, a row of the performance table meets at
    most one census row. *)
Lemma at_most_one_match (h2 : list string) (k : option string)
      (rows2 : list (list cell)) :
  NoDup (present_keys (map (key h2) rows2)) ->
  filter (fun r2 => sql_eq k (key h2 r2)) rows2 = [] \/
  exists r2, filter (fun r2 => sql_eq k (key h2 r2)) rows2 = [r2].
Proof.
  induction rows2 as [|r2 rows2 IH]; simpl; intros Hnd; [now left|].
  destruct (sql_eq k (key h2 r2)) eqn:E.
  - right. exists r2. f_equal.
    apply sql_eq_true in E. destruct E as [x [Hk Hr]].
    rewrite Hr in Hnd. inversion Hnd as [|? ? Hnotin _]; subst.
    apply no_key_no_match. intros y Hy. congruence.
  - apply IH. destruct (key h2 r2); [now inversion Hnd|exact Hnd].
Qed.

Lemma null_part_nulls : Forall (fun c => isnull c = true) null_part.
Proof. repeat constructor. Qed.

(** The rows one performance row gives, under distinct census keys. *)
Lemma joined_spec (h1 h2 : list string) (rows2 : list (list cell)) (r1 : list cell) :
  NoDup (present_keys (map (key h2) rows2)) ->
  exists infra,
    joined format_float64 h1 h2 rows2 r1 = [r1 ++ infra] /\
    List.length infra = List.length censo_fields /\
    ((exists r2 k, In r2 rows2 /\ key h1 r1 = Some k /\ key h2 r2 = Some k /\
                   infra = censo_part h2 r2)
     \/
     ((forall r2, In r2 rows2 -> on_clause format_float64 h1 h2 r1 r2 = false) /\
      infra = null_part)).
Proof.
  intros Hnd. unfold joined, on_clause. fold key.
  destruct (at_most_one_match h2 (key h1 r1) rows2 Hnd) as [Hnone|[r2 Hone]].
  - rewrite Hnone. exists null_part. split; [reflexivity|]. split; [reflexivity|].
    right. split; [|reflexivity].
    intros r2 Hin. destruct (sql_eq (key h1 r1) (key h2 r2)) eqn:E; [|reflexivity].
    assert (Hf : In r2 (filter (fun r => sql_eq (key h1 r1) (key h2 r)) rows2))
      by (apply filter_In; auto).
    rewrite Hnone in Hf. contradiction.
  - rewrite Hone. exists (censo_part h2 r2). split; [reflexivity|].
    split; [unfold censo_part; apply length_map|].
    left.
    assert (Hf : In r2 (filter (fun r => sql_eq (key h1 r1) (key h2 r)) rows2))
      by (rewrite Hone; now left).
    apply filter_In in Hf. destruct Hf as [Hin Heq].
    apply sql_eq_true in Heq. destruct Heq as [k [H1 H2]].
    exists r2, k. auto.
Qed.

(** Every performance row is kept, whatever the census keys. *)
Lemma joined_keeps (h1 h2 : list string) (rows2 : list (list cell)) (r1 : list cell) :
  exists infra, In (r1 ++ infra) (joined format_float64 h1 h2 rows2 r1).
Proof.
  unfold joined.
  destruct (filter (on_clause format_float64 h1 h2 r1) rows2) as [|r2 rest].
  - exists null_part. now left.
  - exists (censo_part h2 r2). now left.
Qed.

(** The text a code is compared as is the text the statement casts it
    to. *)
Lemma code_text_cast (c : cell) :
  code_text format_float64 c = cast_as_string format_float64 c.
Proof. destruct c; reflexivity. Qed.

Lemma on_clause_same_code (ideb censo : DataFrame) (r1 r2 : list cell) :
  on_clause format_float64 (columns ideb) (columns censo) r1 r2 = true <->
  same_code format_float64 ideb censo r1 r2.
Proof.
  unfold on_clause, same_code, cod_munic. rewrite sql_eq_true.
  split; intros [k [Ha Hb]]; exists k; rewrite ?code_text_cast in *; auto.
Qed.

Lemma census_codes_keys (censo : DataFrame) :
  census_codes format_float64 censo = censo_keys format_float64 censo.
Proof.
  unfold census_codes, censo_keys.
  induction (rows censo) as [|r2 rs IH]; [reflexivity|].
  cbn [flat_map map present_keys]. rewrite IH, code_text_cast.
  unfold cod_munic.
  destruct (cast_as_string format_float64 (field (columns censo) "cod_munic" r2));
    reflexivity.
Qed.

(** Whatever the census keys, what follows a performance row in an output
    row is what the dataset is to attach to it. *)
Lemma joined_attached (ideb censo : DataFrame) (r1 ro : list cell) :
  In ro (joined format_float64 (columns ideb) (columns censo) (rows censo) r1) ->
  exists infra, ro = r1 ++ infra /\ attached format_float64 ideb censo r1 infra.
Proof.
  unfold joined.
  destruct (filter (on_clause format_float64 (columns ideb) (columns censo) r1)
                   (rows censo)) as [|m ms] eqn:Ef.
  - intros [<-|[]]. exists null_part. split; [reflexivity|].
    right. split; [|reflexivity].
    intros r2 Hin Hsame. apply on_clause_same_code in Hsame.
    assert (Hf : In r2 (filter (on_clause format_float64 (columns ideb)
                                          (columns censo) r1) (rows censo)))
      by (apply filter_In; auto).
    rewrite Ef in Hf. exact Hf.
  - intros Hin. apply in_map_iff in Hin. destruct Hin as [r2 [<- Hin]].
    exists (censo_part (columns censo) r2). split; [reflexivity|].
    left. exists r2.
    rewrite <- Ef in Hin. apply filter_In in Hin. destruct Hin as [Hin Hon].
    split; [exact Hin|]. split; [now apply on_clause_same_code|reflexivity].
Qed.

(** C3. The join keeps every row of the performance table.  Every output
    row is a performance row followed by nine infrastructure fields: the
    nine fields of a census row whose municipality code reads as the same
    text as its own, or nine nulls when no census row has such a code;
    so an infrastructure field is non-null only where a census row of
    the same code exists.  When no two census rows have the same code, the
    output has exactly one row per performance row, in the order of the
    performance table. *)
Theorem ideb_left_join_censo_spec (ideb censo : DataFrame) :
  has_column ideb "cod_munic" = true ->
  has_column censo "cod_munic" = true ->
  (forall label, In label infra_fields -> has_column censo label = true) ->
  exists out,
    ideb_left_join_censo format_float64 ideb censo = Ok out /\
    columns out = columns ideb ++ infra_fields /\
    (forall r1, In r1 (rows ideb) -> exists infra, In (r1 ++ infra) (rows out)) /\
    (forall ro, In ro (rows out) ->
                exists r1 infra,
                  In r1 (rows ideb) /\ ro = r1 ++ infra /\
                  attached format_float64 ideb censo r1 infra) /\
    (NoDup (census_codes format_float64 censo) ->
     List.length (rows out) = List.length (rows ideb) /\
     Forall2
       (fun r1 ro =>
          exists infra,
            ro = r1 ++ infra /\ attached format_float64 ideb censo r1 infra)
       (rows ideb) (rows out)).
Proof.
  intros H1 H2 H3.
  assert (H3' : forallb (has_column censo) censo_fields = true)
    by (apply forallb_forall; exact H3).
  unfold ideb_left_join_censo. rewrite H1, H2, H3'. cbn [andb].
  eexists. split; [reflexivity|]. cbn [columns rows].
  split; [reflexivity|]. split; [|split].
  - intros r1 Hin.
    destruct (joined_keeps (columns ideb) (columns censo) (rows censo) r1)
      as [infra Hinfra].
    exists infra. apply in_flat_map. exists r1. auto.
  - intros ro Hin. apply in_flat_map in Hin. destruct Hin as [r1 [Hr1 Hro]].
    destruct (joined_attached ideb censo r1 ro Hro) as [infra [E A]].
    exists r1, infra. auto.
  - rewrite census_codes_keys. unfold censo_keys. fold key. intros Hnd.
    assert (Hall : forall r1 ro,
               In ro (joined format_float64 (columns ideb) (columns censo)
                             (rows censo) r1) ->
               exists infra, ro = r1 ++ infra /\
                             attached format_float64 ideb censo r1 infra)
      by (intros r1 ro; apply joined_attached).
    induction (rows ideb) as [|r1 rs IH]; cbn [flat_map].
    + split; [reflexivity|constructor].
    + destruct IH as [Hlen Hf2].
      destruct (joined_spec (columns ideb) (columns censo) (rows censo) r1 Hnd)
        as [infra [Hj _]].
      specialize (Hall r1). rewrite Hj in *. cbn [app List.length].
      split; [now rewrite Hlen|].
      constructor; [|exact Hf2].
      apply Hall. now left.
Qed.

End Join.

Lemma ideb_left_join_censo_spec_witness :
  exists out,
    ideb_left_join_censo (fun _ => "") sample_ideb sample_censo = Ok out /\
    List.length (rows out) = List.length (rows sample_ideb).
Proof.
  assert (Hf : forall label, In label infra_fields ->
                             has_column sample_censo label = true).
  { intros label Hin. cbn [infra_fields In] in Hin.
    repeat (destruct Hin as [<-|Hin]; [reflexivity|]). contradiction. }
  destruct (ideb_left_join_censo_spec (fun _ => "") sample_ideb sample_censo
              eq_refl eq_refl Hf) as [out [Ho [_ [_ [_ H]]]]].
  exists out. split; [exact Ho|].
  apply H. vm_compute. repeat constructor; cbn [In]; intuition discriminate.
Defined.

(** The codes meet across their types: an integer code of the performance
    table joins the census row that stores the same code as a text, and a
    performance row without a census row is kept with nulls. *)
Example join_across_types :
  rmap rows (ideb_left_join_censo (fun _ => "") sample_ideb sample_censo)
  = Ok [ [Int 3205309; Str "Vitória"; Float (61 # 10);
          Int 10; Int 5; Int 5; Int 4; Int 4; Int 3; Float 50; Float 20; Float 25];
         [Int 3205002; Str "Serra"; Float (58 # 10);
          Null; Null; Null; Null; Null; Null; Null; Null; Null] ].
Proof. vm_compute. reflexivity. Qed.

End JoinFacts.


(* ------------------------------------------------------------------ *)
(** ** The colour rule, exactly                                        *)
(* ------------------------------------------------------------------ *)

Module ColorExact.

(** The comparisons of a specification float with two positive thresholds
    of one exponent fall in one of four rows: a NaN, which no comparison
    holds of, or a number below the first threshold, between the two, or
    at or above the second. *)
Lemma threshold_table (m1 m2 : positive) (e : Z) (s : spec_float) :
  (m1 < m2)%positive ->
  let lo := S754_finite false m1 e in
  let hi := S754_finite false m2 e in
  (SFeqb s s, SFltb s lo, SFltb s hi, SFleb lo s, SFleb hi s)
  = (false, false, false, false, false) \/
  (SFeqb s s, SFltb s lo, SFltb s hi, SFleb lo s, SFleb hi s)
  = (true, true, true, false, false) \/
  (SFeqb s s, SFltb s lo, SFltb s hi, SFleb lo s, SFleb hi s)
  = (true, false, true, true, false) \/
  (SFeqb s s, SFltb s lo, SFltb s hi, SFleb lo s, SFleb hi s)
  = (true, false, false, true, true).
Proof.
  intros Hlt lo hi. subst lo hi. unfold SFeqb, SFltb, SFleb.
  destruct s as [sg|sg| |sg m x]; simpl.
  - destruct sg; tauto.
  - destruct sg; tauto.
  - tauto.
  - rewrite Z.compare_refl, Pos.compare_cont_refl.
    destruct sg; simpl; [tauto|].
    rewrite (Z.compare_antisym x e).
    destruct (Z.compare_spec x e); simpl; try tauto.
    change (Pos.compare_cont Eq m m1) with (m ?= m1)%positive.
    change (Pos.compare_cont Eq m m2) with (m ?= m2)%positive.
    change (Pos.compare_cont Eq m1 m) with (m1 ?= m)%positive.
    change (Pos.compare_cont Eq m2 m) with (m2 ?= m)%positive.
    rewrite (Pos.compare_antisym m m1), (Pos.compare_antisym m m2).
    destruct (Pos.compare_spec m m1); destruct (Pos.compare_spec m m2);
      simpl; try tauto; lia.
Qed.

(** X1. The colour rule, colour by colour: grey exactly for a NaN score,
    red exactly below 5.8, yellow exactly from 5.8 up to but not
    including 6.5 (so the scores between 6.4 and 6.5, which the legend
    leaves out, are yellow), green exactly from 6.5 on. *)
Theorem get_color_exact (nota : float) :
  (get_color nota = cor_nulo <-> PrimFloat.is_nan nota = true) /\
  (get_color nota = cor_baixo <-> (nota <? 5.8)%float = true) /\
  (get_color nota = cor_medio <->
     (5.8 <=? nota)%float = true /\ (nota <? 6.5)%float = true) /\
  (get_color nota = cor_alto <-> (6.5 <=? nota)%float = true).
Proof.
  unfold get_color. rewrite ColorFacts.is_nan_spec, !ltb_spec, !leb_spec.
  rewrite ColorFacts.Prim2SF_5_8, ColorFacts.Prim2SF_6_5.
  assert (Hlt : (6530219459687219 < 7318349394477056)%positive) by lia.
  destruct (threshold_table 6530219459687219 7318349394477056 (-50)
                            (Prim2SF nota) Hlt) as [H|[H|[H|H]]];
    injection H as -> -> -> -> ->; cbn [negb];
    repeat split; intros; try discriminate; try reflexivity;
    try (destruct H; discriminate).
Qed.

(** A score that is a number gets one of the three colours of the legend. *)
Lemma get_color_of_number (nota : float) :
  PrimFloat.is_nan nota = false ->
  get_color nota = cor_baixo \/ get_color nota = cor_medio \/
  get_color nota = cor_alto.
Proof.
  intros H. unfold get_color. rewrite H.
  destruct (nota <? 5.8)%float; [now left|].
  destruct (nota <? 6.5)%float; [right; now left|right; now right].
Qed.

(** X2. On the map no municipality is grey: the rows without a boundary
    or without a score are dropped before the colours are computed, so
    every colour of the [cor] column is red, yellow or green, and there is
    one colour per row that has both a boundary and a score. *)
Theorem cor_column_never_grey (df_mapa : list linha_mapa) :
  Forall (fun cor => (cor = cor_baixo \/ cor = cor_medio \/ cor = cor_alto)
                     /\ cor <> cor_nulo)
         (cor_column df_mapa) /\
  List.length (cor_column df_mapa) = List.length (dropna_mapa df_mapa) /\
  (forall r, In r (dropna_mapa df_mapa) <->
             In r df_mapa /\ geometry r <> None /\
             PrimFloat.is_nan (nota_ideb r) = false).
Proof.
  split; [|split].
  - unfold cor_column. apply Forall_forall. intros cor Hin.
    apply in_map_iff in Hin. destruct Hin as [r [<- Hr]].
    unfold dropna_mapa in Hr. apply filter_In in Hr. destruct Hr as [_ Hr].
    destruct (geometry r); [|discriminate].
    apply negb_true_iff in Hr.
    split; [now apply get_color_of_number|].
    intros Hgrey.
    destruct (get_color_of_number (nota_ideb r) Hr) as [H|[H|H]];
      rewrite H in Hgrey; discriminate Hgrey.
  - unfold cor_column. apply length_map.
  - intros r. unfold dropna_mapa. rewrite filter_In.
    destruct (geometry r) as [g|]; split; intros [H1 H2]; split; auto.
    + split; [discriminate|now apply negb_true_iff].
    + apply negb_true_iff. tauto.
    + discriminate.
    + tauto.
Qed.

End ColorExact.


(* ------------------------------------------------------------------ *)
(** ** Loading: every outcome of the warehouse call                    *)
(* ------------------------------------------------------------------ *)

Module LoadFacts.

Lemma run_query_returns (client : Client) (sql : string) (df : DataFrame) :
  succeeds_with client sql df -> run_query client sql = ([], Ok df).
Proof.
  intros [j [Hq Hd]]. unfold run_query, try_except, bind, lift.
  rewrite Hq, Hd. reflexivity.
Qed.

(** X3. The three outcomes of [run_query]: the rows of the warehouse,
    with nothing written; or, after a failure of class [Exception] at
    either step, the empty frame with the error and its trace written; or,
    after a failure outside that class, the failure itself, which the
    handler does not intercept.  So [run_query] never ends with an
    exception of class [Exception]. *)
Theorem run_query_outcomes (client : Client) (sql : string) :
  ((exists df, succeeds_with client sql df /\
               run_query client sql = ([], Ok df)) \/
   (exists e, fails_with client sql e /\ is_Exception e = true /\
              run_query client sql
              = ([st_error "Erro ao executar a consulta no BigQuery.";
                  st_exception e], Ok empty_frame)) \/
   (exists e, fails_with client sql e /\ is_Exception e = false /\
              run_query client sql = ([], Raise e))) /\
  (forall e, snd (run_query client sql) = Raise e -> is_Exception e = false).
Proof.
  assert (Hcases :
    (exists df, succeeds_with client sql df) \/ (exists e, fails_with client sql e)).
  { unfold succeeds_with, fails_with.
    destruct (query client sql) as [j|e] eqn:Hq.
    - destruct (to_dataframe client j) as [df|e] eqn:Hd.
      + left. exists df, j. auto.
      + right. exists e. right. exists j. auto.
    - right. exists e. now left. }
  destruct Hcases as [[df Hs]|[e Hf]].
  - pose proof (run_query_returns client sql df Hs) as Hrun.
    split; [left; exists df; auto|].
    intros e He. rewrite Hrun in He. discriminate.
  - destruct (is_Exception e) eqn:Hc.
    + pose proof (QueryFacts.run_query_except client sql e Hf Hc) as Hrun.
      split; [right; left; exists e; auto|].
      intros e' He. rewrite Hrun in He. discriminate.
    + pose proof (QueryFacts.run_query_passes client sql e Hf Hc) as Hrun.
      split; [right; right; exists e; auto|].
      intros e' He. rewrite Hrun in He. simpl in He. congruence.
Qed.

(** X4. When the load query fails with an error of class [Exception],
    [load_and_prepare_data] does not raise: the coercion loop finds none of
    its columns, the renaming has nothing to rename, and the caller
    receives the empty frame together with the catalog. *)
Theorem load_unavailable (parse_number : string -> option Q) (client : Client)
        (project_id dataset_id ideb_table censo_table : string) (e : exn) :
  fails_with client (load_query project_id dataset_id ideb_table censo_table) e ->
  is_Exception e = true ->
  load_and_prepare_data parse_number client project_id dataset_id
                        ideb_table censo_table
  = ([st_error "Erro ao executar a consulta no BigQuery."; st_exception e],
     Ok (empty_frame, friendly_names))
  /\ empty empty_frame = true.
Proof.
  intros Hf He. split; [|reflexivity].
  unfold load_and_prepare_data.
  rewrite (QueryFacts.run_query_except _ _ _ Hf He). reflexivity.
Qed.

Lemma load_unavailable_witness :
  load_and_prepare_data no_parse offline_client "projeto" DATASET_ID
                        IDEB_TABLE CENSO_TABLE
  = ([st_error "Erro ao executar a consulta no BigQuery.";
      st_exception NetworkError],
     Ok (empty_frame, friendly_names))
  /\ empty empty_frame = true.
Proof.
  apply (load_unavailable no_parse offline_client "projeto" DATASET_ID
                          IDEB_TABLE CENSO_TABLE NetworkError).
  - left. reflexivity.
  - reflexivity.
Defined.

(** X5. With the dataset unavailable, every section but 'Visão Geral'
    ends normally: whatever the selection held, the script reaches the
    section with the empty frame and no selection, and the section writes
    its notice and computes nothing. *)
Theorem unavailable_sections_end (parse_number : string -> option Q)
        (client : Client) (PROJECT_ID : string) (selecao : list string)
        (s : secao) (e : exn) :
  fails_with client (load_query PROJECT_ID DATASET_ID IDEB_TABLE CENSO_TABLE) e ->
  is_Exception e = true ->
  s <> VisaoGeral ->
  exists notice,
    script parse_number client PROJECT_ID selecao s
    = ([st_error "Erro ao executar a consulta no BigQuery."; st_exception e;
        st_warning "Não foi possível carregar a lista de municípios."; notice],
       Ok tt)
    /\ render s empty_frame [] = ([notice], Ok tt).
Proof.
  intros Hf He Hs.
  destruct (GuardFacts.guarded_sections s Hs) as [notice Hn].
  exists notice. split; [|exact Hn].
  rewrite (GuardFacts.script_unavailable _ _ _ _ _ _ Hf He), Hn. reflexivity.
Qed.

Lemma unavailable_sections_end_witness :
  exists notice,
    script no_parse offline_client "projeto" ["Serra"] AnaliseInfraestrutura
    = ([st_error "Erro ao executar a consulta no BigQuery.";
        st_exception NetworkError;
        st_warning "Não foi possível carregar a lista de municípios."; notice],
       Ok tt)
    /\ render AnaliseInfraestrutura empty_frame [] = ([notice], Ok tt).
Proof.
  apply (unavailable_sections_end no_parse offline_client "projeto" ["Serra"]
                                  AnaliseInfraestrutura NetworkError).
  - left. reflexivity.
  - reflexivity.
  - discriminate.
Defined.

End LoadFacts.

(* ------------------------------------------------------------------ *)
(** ** The filtered view as a sub-view of the dataset                  *)
(* ------------------------------------------------------------------ *)

Module ViewFacts.

Lemma filter_idempotent {A} (p : A -> bool) (l : list A) :
  filter p (filter p l) = filter p l.
Proof.
  induction l as [|a l IH]; simpl; [reflexivity|].
  destruct (p a) eqn:E; simpl; [rewrite E; now f_equal|exact IH].
Qed.

Lemma filter_length_le {A} (p : A -> bool) (l : list A) :
  (List.length (filter p l) <= List.length l)%nat.
Proof.
  induction l as [|a l IH]; simpl; [lia|].
  destruct (p a); simpl; lia.
Qed.

Lemma forallb_map_filter {A B} (p : B -> bool) (g : A -> B) (q : A -> bool)
      (l : list A) :
  forallb p (map g l) = true -> forallb p (map g (filter q l)) = true.
Proof.
  induction l as [|a l IH]; simpl; [reflexivity|].
  intros H. apply andb_prop in H. destruct H as [Ha Hl].
  destruct (q a); simpl; [rewrite Ha|]; auto.
Qed.

(** The shape of a successful filter. *)
Lemma df_filtrado_ok (df v : DataFrame) (sel : list string) :
  df_filtrado df sel = Ok v ->
  v = df \/
  exists i, index_of "Município" (columns df) = Some i /\
            v = mkFrame (columns df)
                        (filter (fun r => isin sel (at_pos i r)) (rows df)).
Proof.
  unfold df_filtrado, select_rows. destruct sel as [|s sel].
  - intros H. injection H as <-. now left.
  - destruct (index_of "Município" (columns df)) as [i|]; [|discriminate].
    intros H. injection H as <-. right. now exists i.
Qed.

(** X6. The filter fails in one case only: some name is selected and the
    dataset has no 'Município' column; the failure is then the [KeyError]
    of that column.  With nothing selected it cannot fail, whatever the
    dataset. *)
Theorem df_filtrado_raises (df : DataFrame) (sel : list string) (e : exn) :
  df_filtrado df sel = Raise e <->
  sel <> [] /\ has_column df "Município" = false /\ e = KeyError "Município".
Proof.
  unfold df_filtrado, select_rows. destruct sel as [|s sel].
  - split; [discriminate|]. intros [H _]. congruence.
  - destruct (index_of "Município" (columns df)) as [i|] eqn:Hi.
    + rewrite (FilterFacts.has_column_index_of _ _ _ Hi).
      split; [discriminate|]. intros [_ [H _]]. discriminate.
    + split.
      * intros H. injection H as <-. split; [discriminate|]. split; [|reflexivity].
        destruct (has_column df "Município") eqn:Hc; [|reflexivity].
        destruct (FilterFacts.index_of_has_column _ _ Hc) as [i Hi']. congruence.
      * intros [_ [_ ->]]. reflexivity.
Qed.

(** X7. A filtered view is a sub-view of the dataset and a fixed point of
    the filter: it has the header of the dataset, its rows are rows of the
    dataset and no more numerous, and filtering it again by the same
    selection returns it unchanged. *)
Theorem df_filtrado_subview (df v : DataFrame) (sel : list string) :
  df_filtrado df sel = Ok v ->
  columns v = columns df /\
  (List.length (rows v) <= List.length (rows df))%nat /\
  (forall r, In r (rows v) -> In r (rows df)) /\
  df_filtrado v sel = Ok v.
Proof.
  intros H. destruct (df_filtrado_ok _ _ _ H) as [->|[i [Hi ->]]].
  - repeat split; auto.
  - simpl. split; [reflexivity|]. split; [apply filter_length_le|].
    split; [intros r Hr; now apply filter_In in Hr|].
    clear H. unfold df_filtrado, select_rows. destruct sel as [|s sel].
    + reflexivity.
    + simpl. rewrite Hi. now rewrite filter_idempotent.
Qed.

Lemma df_filtrado_subview_witness :
  columns (mkFrame (columns sample_view) [nth 1 (rows sample_view) []])
  = columns sample_view /\
  (List.length (rows (mkFrame (columns sample_view) [nth 1 (rows sample_view) []]))
   <= List.length (rows sample_view))%nat /\
  (forall r, In r (rows (mkFrame (columns sample_view) [nth 1 (rows sample_view) []]))
             -> In r (rows sample_view)) /\
  df_filtrado (mkFrame (columns sample_view) [nth 1 (rows sample_view) []]) ["B"]
  = Ok (mkFrame (columns sample_view) [nth 1 (rows sample_view) []]).
Proof.
  apply (df_filtrado_subview sample_view
           (mkFrame (columns sample_view) [nth 1 (rows sample_view) []]) ["B"]).
  reflexivity.
Defined.

(** X8. Filtering keeps what the indicators need of a column: a column
    of the dataset that holds numbers and nulls only, or non-negative
    numbers only, is such a column of every filtered view. *)
Theorem df_filtrado_keeps_numeric (df v : DataFrame) (sel : list string)
        (label : string) :
  df_filtrado df sel = Ok v ->
  (numeric_column df label = true -> numeric_column v label = true) /\
  (nonneg_column df label = true -> nonneg_column v label = true).
Proof.
  intros H. destruct (df_filtrado_ok _ _ _ H) as [->|[i [Hi ->]]]; [auto|].
  unfold numeric_column, nonneg_column, get_col. simpl.
  destruct (index_of label (columns df)) as [k|]; [|auto].
  split; apply forallb_map_filter.
Qed.

Lemma df_filtrado_keeps_numeric_witness :
  numeric_column (mkFrame (columns sample_view) [nth 1 (rows sample_view) []])
                 "Total de Escolas" = true.
Proof.
  apply (proj1 (df_filtrado_keeps_numeric sample_view
                  (mkFrame (columns sample_view) [nth 1 (rows sample_view) []])
                  ["B"] "Total de Escolas" eq_refl)).
  reflexivity.
Defined.

End ViewFacts.

(* ------------------------------------------------------------------ *)
(** ** What the preparation guarantees to the views                    *)
(* ------------------------------------------------------------------ *)

Module PrepareFacts.

Lemma dict_get_key (d : dict) (k v : string) :
  dict_get d k = Some v -> In k (dict_keys d).
Proof.
  induction d as [|[k' v'] d IH]; simpl; [discriminate|].
  destruct (String.eqb k k') eqn:E.
  - apply String.eqb_eq in E. intros _. now left.
  - intros H. right. now apply IH.
Qed.

Lemma dict_key_get (d : dict) (k : string) :
  In k (dict_keys d) -> dict_get d k <> None.
Proof.
  induction d as [|[k' v'] d IH]; simpl; [contradiction|].
  destruct (String.eqb k k') eqn:E; [discriminate|].
  intros [H|H]; [|now apply IH].
  subst. now rewrite String.eqb_refl in E.
Qed.

(** No display label of the catalog, and no label the catalog leaves
    alone, is an internal identifier of the catalog. *)
Lemma rename_label_not_key (l : string) :
  dict_get friendly_names (rename_label friendly_names l) = None.
Proof.
  unfold rename_label.
  destruct (dict_get friendly_names l) as [v|] eqn:E; [|exact E].
  unfold friendly_names in E. simpl in E.
  repeat match type of E with
         | (if ?b then _ else _) = _ =>
             destruct b; [injection E as <-; vm_compute; reflexivity|]
         end.
  discriminate E.
Qed.

Lemma rename_label_idempotent (l : string) :
  rename_label friendly_names (rename_label friendly_names l)
  = rename_label friendly_names l.
Proof.
  unfold rename_label at 1. now rewrite rename_label_not_key.
Qed.

Lemma numeric_cols_are_keys (c : string) :
  In c numeric_cols -> In c (dict_keys friendly_names).
Proof.
  intros H.
  assert (Hall : forallb (fun c => match dict_get friendly_names c with
                                    | Some _ => true
                                    | None => false
                                    end) numeric_cols = true)
    by (vm_compute; reflexivity).
  rewrite forallb_forall in Hall. specialize (Hall c H).
  destruct (dict_get friendly_names c) as [v|] eqn:E; [|discriminate].
  now apply dict_get_key with (v := v).
Qed.

Lemma has_column_rename (df : DataFrame) (k : string) :
  In k (dict_keys friendly_names) ->
  has_column (rename friendly_names df) k = false.
Proof.
  intros Hk. unfold has_column, rename. cbn [columns].
  destruct (existsb (String.eqb k) (map (rename_label friendly_names) (columns df)))
    eqn:E; [|reflexivity].
  apply existsb_exists in E. destruct E as [x [Hin Hx]].
  apply String.eqb_eq in Hx. subst x.
  apply in_map_iff in Hin. destruct Hin as [l [Hl _]].
  exfalso. apply (dict_key_get _ _ Hk). rewrite <- Hl.
  apply rename_label_not_key.
Qed.

(** X9. After the preparation no column carries an internal identifier
    of the catalog any more: a view that asked for one, as the coercion
    list does, would find no such column. *)
Theorem prepare_hides_internal_names (parse_number : string -> option Q)
        (df : DataFrame) (k : string) :
  In k (dict_keys friendly_names) ->
  has_column (prepare parse_number df) k = false /\
  get_col (prepare parse_number df) k = Raise (KeyError k).
Proof.
  intros Hk. unfold prepare.
  pose proof (has_column_rename (coerce_numeric parse_number df) k Hk) as H.
  split; [exact H|].
  unfold get_col.
  destruct (index_of k (columns (rename friendly_names
                                        (coerce_numeric parse_number df))))
    as [i|] eqn:E; [|reflexivity].
  rewrite (FilterFacts.has_column_index_of _ _ _ E) in H. discriminate.
Qed.

Lemma prepare_hides_internal_names_witness :
  has_column (prepare parse_integer sample_ideb) "ideb_2023" = false /\
  get_col (prepare parse_integer sample_ideb) "ideb_2023"
  = Raise (KeyError "ideb_2023").
Proof.
  apply (prepare_hides_internal_names parse_integer sample_ideb "ideb_2023").
  simpl. tauto.
Defined.

Lemma coerce_numeric_absent (parse_number : string -> option Q) (df : DataFrame) :
  (forall c, In c numeric_cols -> has_column df c = false) ->
  coerce_numeric parse_number df = df.
Proof.
  unfold coerce_numeric. induction numeric_cols as [|c cols IH]; simpl;
    intros H; [reflexivity|].
  unfold coerce_column at 2. rewrite (H c (or_introl eq_refl)).
  apply IH. intros c' Hc'. apply H. now right.
Qed.

(** X10. The preparation is idempotent: prepared data pass through it
    unchanged, because the coercion finds none of its columns under their
    internal identifiers and the renaming maps every display label to
    itself. *)
Theorem prepare_idempotent (parse_number : string -> option Q) (df : DataFrame) :
  prepare parse_number (prepare parse_number df) = prepare parse_number df.
Proof.
  unfold prepare at 1. rewrite coerce_numeric_absent.
  - unfold prepare, rename. cbn [columns rows]. f_equal.
    rewrite map_map. apply map_ext. intros l. apply rename_label_idempotent.
  - intros c Hc. unfold prepare. apply has_column_rename.
    now apply numeric_cols_are_keys.
Qed.

Lemma index_of_map (g : string -> string) (h : list string) (k : string) (i : nat) :
  index_of k h = Some i ->
  (forall l, In l h -> g l = g k -> l = k) ->
  index_of (g k) (map g h) = Some i.
Proof.
  revert i. induction h as [|x t IH]; intros i; simpl; [discriminate|].
  intros Hi Hinj. destruct (String.eqb k x) eqn:E.
  - apply String.eqb_eq in E. subst x. now rewrite String.eqb_refl.
  - destruct (String.eqb (g k) (g x)) eqn:Eg.
    + apply String.eqb_eq in Eg. symmetry in Eg.
      apply (Hinj x (or_introl eq_refl)) in Eg. subst x.
      now rewrite String.eqb_refl in E.
    + destruct (index_of k t) as [j|]; [|discriminate].
      rewrite (IH j eq_refl); [exact Hi|].
      intros l Hl. apply Hinj. now right.
Qed.

Lemma to_numeric_is_numeric (parse_number : string -> option Q) (c : cell) :
  is_numeric (to_numeric parse_number c) = true.
Proof.
  destruct c as [| | |s]; simpl; try reflexivity.
  destruct (parse_number s); reflexivity.
Qed.

(** X11. The preparation hands the views columns of numbers: for a field
    of the coercion list that the query returned, the column under its
    display label holds numbers and nulls only, whatever the warehouse
    sent (provided the raw result has no column already named by that
    display label).  This is what the sums of the indicators require. *)
Theorem prepare_numeric (parse_number : string -> option Q) (df : DataFrame)
        (k : string) :
  In k numeric_cols ->
  has_column df k = true ->
  has_column df (rename_label friendly_names k) = false ->
  numeric_column (prepare parse_number df) (rename_label friendly_names k) = true.
Proof.
  intros Hk Hcol Hfree.
  destruct (FilterFacts.index_of_has_column _ _ Hcol) as [i Hi].
  destruct (CoercionFacts.coerce_fold parse_number numeric_cols df) as [Hc Hr].
  unfold numeric_column, get_col, prepare, rename, coerce_numeric.
  cbn [columns rows]. rewrite Hc, Hr.
  rewrite (index_of_map (rename_label friendly_names) (columns df) k i Hi).
  - apply forallb_forall. intros c Hin.
    apply in_map_iff in Hin. destruct Hin as [r' [<- Hin]].
    apply in_map_iff in Hin. destruct Hin as [r [<- _]].
    rewrite CoercionFacts.at_pos_coerce_fold.
    rewrite (CoercionFacts.stands_at_label _ _ _ numeric_cols Hi).
    assert (Hex : existsb (String.eqb k) numeric_cols = true).
    { apply existsb_exists. exists k. split; [exact Hk|apply String.eqb_refl]. }
    rewrite Hex. apply to_numeric_is_numeric.
  - intros l Hl Heq.
    destruct (dict_get friendly_names l) as [v|] eqn:El.
    + apply CatalogFacts.friendly_names_injective.
      * now apply dict_get_key with (v := v).
      * now apply numeric_cols_are_keys.
      * exact Heq.
    + exfalso. unfold rename_label at 1 in Heq. rewrite El in Heq.
      assert (Hhas : has_column df (rename_label friendly_names k) = true).
      { unfold has_column. apply existsb_exists. exists l.
        split; [exact Hl|]. rewrite Heq. apply String.eqb_refl. }
      congruence.
Qed.

Lemma prepare_numeric_witness :
  numeric_column (prepare parse_integer sample_ideb) "Nota IDEB 2023" = true.
Proof.
  apply (prepare_numeric parse_integer sample_ideb "ideb_2023").
  - simpl. tauto.
  - reflexivity.
  - reflexivity.
Defined.

End PrepareFacts.

(* ------------------------------------------------------------------ *)
(** ** The join without the uniqueness of the census keys              *)
(* ------------------------------------------------------------------ *)

Module JoinCount.

Section Count.

Variable format_float64 : Q -> string.





End Count.

(** A census table that lists one municipality twice. *)
Example repeated_census_code :
  let censo2 := mkFrame (columns sample_censo)
                        (rows sample_censo ++ rows sample_censo) in
  rmap len (ideb_left_join_censo (fun _ => "") sample_ideb censo2) = Ok 3%nat.
Proof. vm_compute. reflexivity. Qed.


End JoinCount.

(* ------------------------------------------------------------------ *)
(** ** The coercion applied twice                                      *)
(* ------------------------------------------------------------------ *)

Module CoercionTwice.

Lemma update_at_length (i : nat) (f : cell -> cell) (r : list cell) :
  List.length (update_at i f r) = List.length r.
Proof.
  revert i. induction r as [|c r IH]; intros i; [reflexivity|].
  destruct i; simpl; [reflexivity|]. now rewrite IH.
Qed.

Lemma coerce_row_length (parse_number : string -> option Q)
      (header cols : list string) (r : list cell) :
  List.length (fold_left (coerce_in_row parse_number header) cols r)
  = List.length r.
Proof.
  revert r. induction cols as [|c cols IH]; intros r; simpl; [reflexivity|].
  rewrite IH. unfold coerce_in_row.
  destruct (index_of c header); [apply update_at_length|reflexivity].
Qed.

Lemma coerce_row_idempotent (parse_number : string -> option Q)
      (header cols : list string) (r : list cell) :
  fold_left (coerce_in_row parse_number header) cols
            (fold_left (coerce_in_row parse_number header) cols r)
  = fold_left (coerce_in_row parse_number header) cols r.
Proof.
  apply nth_ext with (d := Null) (d' := Null).
  - now rewrite !coerce_row_length.
  - intros n _.
    change (at_pos n (fold_left (coerce_in_row parse_number header) cols
                                (fold_left (coerce_in_row parse_number header)
                                           cols r))
            = at_pos n (fold_left (coerce_in_row parse_number header) cols r)).
    rewrite !CoercionFacts.at_pos_coerce_fold.
    destruct (existsb (stands_at header n) cols); [|reflexivity].
    apply CoercionFacts.to_numeric_idempotent.
Qed.

Lemma frame_eq (a b : DataFrame) :
  columns a = columns b -> rows a = rows b -> a = b.
Proof. destruct a, b. simpl. congruence. Qed.

(** X16. The coercion is idempotent: a frame that went through it goes
    through it again unchanged, cell for cell; the numbers it produced
    stay numbers and the nulls it produced stay nulls. *)
Theorem coerce_numeric_idempotent (parse_number : string -> option Q)
        (df : DataFrame) :
  coerce_numeric parse_number (coerce_numeric parse_number df)
  = coerce_numeric parse_number df.
Proof.
  unfold coerce_numeric.
  destruct (CoercionFacts.coerce_fold parse_number numeric_cols df) as [Hc Hr].
  destruct (CoercionFacts.coerce_fold parse_number numeric_cols
              (fold_left (coerce_column parse_number) numeric_cols df))
    as [Hc' Hr'].
  apply frame_eq; [exact Hc'|].
  rewrite Hr', Hc, Hr, map_map.
  apply map_ext. intros r. apply coerce_row_idempotent.
Qed.

End CoercionTwice.

(* ------------------------------------------------------------------ *)
(** ** The rankings of section 'Visão Geral'                           *)
(* ------------------------------------------------------------------ *)

Module RankingFacts.

Lemma split_by_key_spec (i : nat) (rs : list (list cell))
      (ks : list (Q * list cell)) (ns : list (list cell)) :
  split_by_key i rs = Ok (ks, ns) ->
  Permutation rs (map snd ks ++ ns) /\
  Forall (fun p => number_of (at_pos i (snd p)) = Some (fst p)) ks /\
  Forall (fun r => number_of (at_pos i r) = None) ns.
Proof.
  revert ks ns. induction rs as [|r rs IH]; intros ks ns; simpl.
  - intros H. injection H as <- <-. repeat split; constructor.
  - destruct (at_pos i r) as [|z|q|s] eqn:E; try discriminate;
      (destruct (split_by_key i rs) as [[ks' ns']|e]; [|discriminate]);
      destruct (IH ks' ns' eq_refl) as [Hp [Hk Hn]];
      intros H; injection H as <- <-; simpl.
    + split; [now apply Permutation_cons_app|]. split; [exact Hk|].
      constructor; [now rewrite E|exact Hn].
    + split; [now constructor|]. split; [|exact Hn].
      constructor; [simpl; now rewrite E|exact Hk].
    + split; [now constructor|]. split; [|exact Hn].
      constructor; [simpl; now rewrite E|exact Hk].
Qed.

Lemma split_by_key_total (i : nat) (rs : list (list cell)) :
  forallb is_numeric (map (at_pos i) rs) = true ->
  exists ks ns, split_by_key i rs = Ok (ks, ns).
Proof.
  induction rs as [|r rs IH]; simpl; [intros _; now exists [], []|].
  intros H. apply andb_prop in H. destruct H as [Hr Hrs].
  destruct (IH Hrs) as [ks [ns Hs]]. rewrite Hs.
  destruct (at_pos i r); try discriminate; eexists; eexists; reflexivity.
Qed.

Section Order.

Variable first : Q -> Q -> bool.
Variable rel : Q -> Q -> Prop.
Hypothesis first_rel : forall a b, first a b = true -> rel a b.
Hypothesis first_total : forall a b, first a b = false -> first b a = true.
Hypothesis rel_trans : forall a b c, rel a b -> rel b c -> rel a c.

Let R (x y : Q * list cell) : Prop := rel (fst x) (fst y).

Lemma insert_by_perm (x : Q * list cell) (l : list (Q * list cell)) :
  Permutation (insert_by first x l) (x :: l).
Proof.
  induction l as [|y l IH]; simpl; [reflexivity|].
  destruct (first (fst x) (fst y)); [reflexivity|].
  rewrite IH. apply perm_swap.
Qed.

Lemma sort_by_perm (l : list (Q * list cell)) :
  Permutation (sort_by first l) l.
Proof.
  induction l as [|x l IH]; simpl; [reflexivity|].
  unfold sort_by in *. rewrite insert_by_perm. now constructor.
Qed.

Lemma insert_by_sorted (x : Q * list cell) (l : list (Q * list cell)) :
  StronglySorted R l -> StronglySorted R (insert_by first x l).
Proof.
  induction 1 as [|y l Hs IH Hy]; simpl.
  - repeat constructor.
  - destruct (first (fst x) (fst y)) eqn:E.
    + apply first_rel in E. constructor; [now constructor|].
      constructor; [exact E|].
      apply Forall_forall. intros z Hz. rewrite Forall_forall in Hy.
      apply (rel_trans _ _ _ E (Hy z Hz)).
    + apply first_total, first_rel in E. constructor; [exact IH|].
      apply (Permutation_Forall (Permutation_sym (insert_by_perm x l))).
      now constructor.
Qed.

Lemma sort_by_sorted (l : list (Q * list cell)) :
  StronglySorted R (sort_by first l).
Proof.
  induction l as [|x l IH]; simpl; [constructor|].
  now apply insert_by_sorted.
Qed.

Lemma sorted_rows (i : nat) (ks : list (Q * list cell)) (ns : list (list cell)) :
  StronglySorted R ks ->
  Forall (fun p => number_of (at_pos i (snd p)) = Some (fst p)) ks ->
  Forall (fun r => number_of (at_pos i r) = None) ns ->
  StronglySorted (fun r r' => stands_before rel (at_pos i r) (at_pos i r'))
                 (map snd ks ++ ns).
Proof.
  intros Hs Hk Hn. induction Hs as [|p ks Hs IH Hp]; simpl.
  - clear Hk. induction Hn as [|r ns Hr Hn IH]; constructor; [exact IH|].
    apply Forall_forall. intros r' Hr'. rewrite Forall_forall in Hn.
    unfold stands_before. rewrite (Hn r' Hr').
    now destruct (number_of (at_pos i r)).
  - inversion Hk as [|? ? Hkp Hks]; subst.
    constructor; [now apply IH|].
    apply Forall_forall. intros r' Hr'. unfold stands_before. rewrite Hkp.
    apply in_app_or in Hr'. destruct Hr' as [Hr'|Hr'].
    + apply in_map_iff in Hr'. destruct Hr' as [p' [<- Hp']].
      rewrite Forall_forall in Hks, Hp.
      rewrite (Hks p' Hp'). exact (Hp p' Hp').
    + rewrite Forall_forall in Hn. now rewrite (Hn r' Hr').
Qed.

Lemma sorted_split {A} (D : A -> A -> Prop) (l1 l2 : list A) :
  StronglySorted D (l1 ++ l2) ->
  StronglySorted D l1 /\
  forall x y, In x l1 -> In y l2 -> D x y.
Proof.
  induction l1 as [|a l1 IH]; simpl; intros H.
  - split; [constructor|contradiction].
  - inversion H as [|? ? Hs Ha]; subst. destruct (IH Hs) as [H1 H2].
    split.
    + constructor; [exact H1|].
      apply Forall_forall. intros z Hz. rewrite Forall_forall in Ha.
      apply Ha. apply in_or_app. now left.
    + intros x y [<-|Hx] Hy; [|now apply H2].
      rewrite Forall_forall in Ha. apply Ha. apply in_or_app. now right.
Qed.

(** A frame sorted by a column of numbers. *)
Lemma sort_values_sorted (label : string) (df : DataFrame) :
  numeric_column df label = true ->
  exists sorted,
    sort_values label first df = Ok sorted /\
    columns sorted = columns df /\
    Permutation (rows sorted) (rows df) /\
    StronglySorted (fun r r' => stands_before rel (field (columns df) label r)
                                              (field (columns df) label r'))
                   (rows sorted).
Proof.
  unfold numeric_column, get_col, sort_values, field.
  destruct (index_of label (columns df)) as [i|]; [|discriminate].
  intros Hnum. destruct (split_by_key_total i (rows df) Hnum) as [ks [ns Hs]].
  rewrite Hs. cbn [rmap rbind fst snd].
  destruct (split_by_key_spec i (rows df) ks ns Hs) as [Hp [Hk Hn]].
  eexists. split; [reflexivity|]. cbn [columns rows].
  split; [reflexivity|]. split.
  - rewrite Hp. apply Permutation_app_tail, Permutation_map, sort_by_perm.
  - apply sorted_rows; [apply sort_by_sorted| |exact Hn].
    apply (Permutation_Forall (Permutation_sym (sort_by_perm ks)) Hk).
Qed.

(** The first [n] rows of a frame sorted by a column of numbers. *)
Lemma first_rows_sorted (n : nat) (label : string) (df : DataFrame) :
  numeric_column df label = true ->
  exists top rest,
    rmap (fun d => mkFrame (columns d) (firstn n (rows d)))
         (sort_values label first df) = Ok top /\
    columns top = columns df /\
    Permutation (rows top ++ rest) (rows df) /\
    List.length (rows top) = Nat.min n (List.length (rows df)) /\
    StronglySorted (fun r r' => stands_before rel (field (columns df) label r)
                                              (field (columns df) label r'))
                   (rows top) /\
    (forall r r', In r (rows top) -> In r' rest ->
                  stands_before rel (field (columns df) label r)
                                (field (columns df) label r')).
Proof.
  intros Hnum.
  destruct (sort_values_sorted label df Hnum) as [sorted [Hs [Hc [Hp Hsorted]]]].
  rewrite Hs. cbn [rmap rbind].
  exists (mkFrame (columns sorted) (firstn n (rows sorted))), (skipn n (rows sorted)).
  cbn [columns rows]. rewrite firstn_skipn.
  rewrite <- (firstn_skipn n (rows sorted)) in Hsorted.
  apply sorted_split in Hsorted. destruct Hsorted as [H1 H2].
  repeat split; auto.
  rewrite length_firstn. now rewrite (Permutation_length Hp).
Qed.

End Order.

Lemma descending_rel (a b : Q) : descending a b = true -> Qge_rel a b.
Proof. unfold descending, Qge_rel. apply Qle_bool_imp_le. Qed.

Lemma descending_total (a b : Q) : descending a b = false -> descending b a = true.
Proof.
  unfold descending. intros H. apply Qle_bool_iff.
  destruct (Qlt_le_dec a b) as [Hlt|Hle]; [now apply Qlt_le_weak|].
  apply Qle_bool_iff in Hle. congruence.
Qed.

Lemma Qge_rel_trans (a b c : Q) : Qge_rel a b -> Qge_rel b c -> Qge_rel a c.
Proof. unfold Qge_rel. intros H1 H2. now apply Qle_trans with b. Qed.

Lemma ascending_rel (a b : Q) : ascending a b = true -> Qle_rel a b.
Proof. unfold ascending, Qle_rel. apply Qle_bool_imp_le. Qed.

Lemma ascending_total (a b : Q) : ascending a b = false -> ascending b a = true.
Proof.
  unfold ascending. intros H. apply Qle_bool_iff.
  destruct (Qlt_le_dec b a) as [Hlt|Hle]; [now apply Qlt_le_weak|].
  apply Qle_bool_iff in Hle. congruence.
Qed.

Lemma Qle_rel_trans (a b c : Q) : Qle_rel a b -> Qle_rel b c -> Qle_rel a c.
Proof. unfold Qle_rel. intros H1 H2. now apply Qle_trans with b. Qed.





(** The two best and the two worst of the sample, the municipality without
    a score in neither. *)
Example sample_rankings :
  rmap rows (nlargest 2 "Nota IDEB 2023" sample_scores)
  = Ok [ [Str "C"; Float (65 # 10)]; [Str "A"; Float (58 # 10)] ] /\
  rmap rows (nsmallest 2 "Nota IDEB 2023" sample_scores)
  = Ok [ [Str "D"; Float (52 # 10)]; [Str "A"; Float (58 # 10)] ].
Proof. split; vm_compute; reflexivity. Qed.

Lemma numeric_column_sub (df top : DataFrame) (label : string) :
  columns top = columns df ->
  (forall r, In r (rows top) -> In r (rows df)) ->
  numeric_column df label = true -> numeric_column top label = true.
Proof.
  unfold numeric_column, get_col. intros -> Hsub.
  destruct (index_of label (columns df)) as [i|]; [|discriminate].
  rewrite !forallb_forall. intros H c Hc.
  apply in_map_iff in Hc. destruct Hc as [r [<- Hr]].
  apply H. apply in_map. now apply Hsub.
Qed.

Lemma first_rows_then_sorted (first1 first2 : Q -> Q -> bool)
      (rel1 rel2 : Q -> Q -> Prop) (n : nat) (label : string) (df : DataFrame) :
  (forall a b, first1 a b = true -> rel1 a b) ->
  (forall a b, first1 a b = false -> first1 b a = true) ->
  (forall a b c, rel1 a b -> rel1 b c -> rel1 a c) ->
  (forall a b, first2 a b = true -> rel2 a b) ->
  (forall a b, first2 a b = false -> first2 b a = true) ->
  (forall a b c, rel2 a b -> rel2 b c -> rel2 a c) ->
  numeric_column df label = true ->
  exists fig,
    rbind (rmap (fun d => mkFrame (columns d) (firstn n (rows d)))
                (sort_values label first1 df))
          (sort_values label first2) = Ok fig /\
    List.length (rows fig) = Nat.min n (List.length (rows df)) /\
    (forall r, In r (rows fig) -> In r (rows df)) /\
    columns fig = columns df.
Proof.
  intros A1 A2 A3 B1 B2 B3 Hnum.
  destruct (first_rows_sorted first1 rel1 A1 A2 A3 n label df Hnum)
    as [top [rest [Ht [Hc [Hp [Hl _]]]]]].
  assert (Hsub : forall r, In r (rows top) -> In r (rows df)).
  { intros r Hr. apply (Permutation_in _ Hp). apply in_or_app. now left. }
  pose proof (numeric_column_sub df top label Hc Hsub Hnum) as Hnum'.
  destruct (sort_values_sorted first2 rel2 B1 B2 B3 label top Hnum')
    as [fig [Hf [Hcf [Hpf _]]]].
  exists fig. rewrite Ht. cbn [rbind]. split; [exact Hf|]. split; [|split].
  - now rewrite (Permutation_length Hpf).
  - intros r Hr. apply Hsub. now apply (Permutation_in _ Hpf).
  - now rewrite Hcf.
Qed.

Lemma numeric_has_column (df : DataFrame) (label : string) :
  numeric_column df label = true -> has_column df label = true.
Proof.
  unfold numeric_column, get_col.
  destruct (index_of label (columns df)) as [i|] eqn:E; [|discriminate].
  intros _. exact (FilterFacts.has_column_index_of _ _ _ E).
Qed.

(** A figure over a frame with the header of the view draws the columns
    the view has. *)
Lemma px_figure_same_header (fig df : DataFrame) (named : list string) :
  columns fig = columns df -> px_figure fig named = px_figure df named.
Proof.
  intros Hc. induction named as [|name rest IH]; [reflexivity|].
  cbn [px_figure]. rewrite IH. unfold has_column. rewrite Hc. reflexivity.
Qed.

(** The two sorted frames of the section, for a view with a score column
    of numbers and nulls. *)
Lemma ranking_frames (df : DataFrame) :
  numeric_column df "Nota IDEB 2023" = true ->
  exists fig_top5 fig_bottom5,
    rbind (nlargest 5 "Nota IDEB 2023" df) (sort_values "Nota IDEB 2023" ascending)
    = Ok fig_top5 /\
    rbind (nsmallest 5 "Nota IDEB 2023" df) (sort_values "Nota IDEB 2023" descending)
    = Ok fig_bottom5 /\
    columns fig_top5 = columns df /\
    columns fig_bottom5 = columns df /\
    List.length (rows fig_top5) = Nat.min 5 (List.length (rows df)) /\
    List.length (rows fig_bottom5) = Nat.min 5 (List.length (rows df)) /\
    (forall r, In r (rows fig_top5) \/ In r (rows fig_bottom5) -> In r (rows df)).
Proof.
  intros Hnum.
  destruct (first_rows_then_sorted descending ascending Qge_rel Qle_rel 5
              "Nota IDEB 2023" df descending_rel descending_total Qge_rel_trans
              ascending_rel ascending_total Qle_rel_trans Hnum)
    as [fig1 [H1 [L1 [S1 C1]]]].
  destruct (first_rows_then_sorted ascending descending Qle_rel Qge_rel 5
              "Nota IDEB 2023" df ascending_rel ascending_total Qle_rel_trans
              descending_rel descending_total Qge_rel_trans Hnum)
    as [fig2 [H2 [L2 [S2 C2]]]].
  exists fig1, fig2. repeat split; auto.
  intros r [Hr|Hr]; auto.
Qed.

(** The section, once its two sorted frames are known. *)
Lemma ranking_steps (df fig_top5 fig_bottom5 : DataFrame) :
  rbind (nlargest 5 "Nota IDEB 2023" df) (sort_values "Nota IDEB 2023" ascending)
  = Ok fig_top5 ->
  rbind (nsmallest 5 "Nota IDEB 2023" df) (sort_values "Nota IDEB 2023" descending)
  = Ok fig_bottom5 ->
  visao_geral_ranking df
  = match px_figure fig_top5 ["Nota IDEB 2023"; "Município"] with
    | Raise e => ([], Raise e)
    | Ok _ =>
        match px_figure fig_bottom5 ["Nota IDEB 2023"; "Município"] with
        | Raise e => ([st_plotly_chart "fig_top5" fig_top5], Raise e)
        | Ok _ => ([st_plotly_chart "fig_top5" fig_top5;
                    st_plotly_chart "fig_bottom5" fig_bottom5], Ok tt)
        end
    end.
Proof.
  intros H1 H2.
  unfold visao_geral_ranking, bind, lift, emit.
  unfold rbind in H1, H2.
  destruct (nlargest 5 "Nota IDEB 2023" df) as [top|e]; [|discriminate].
  rewrite H1.
  destruct (px_figure fig_top5 ["Nota IDEB 2023"; "Município"]); [|reflexivity].
  destruct (nsmallest 5 "Nota IDEB 2023" df) as [bottom|e]; [|discriminate].
  rewrite H2.
  destruct (px_figure fig_bottom5 ["Nota IDEB 2023"; "Município"]); reflexivity.
Qed.

(** X19. The ranking section over any view whose score column holds
    numbers and nulls: when the view has the column of the municipality
    names, the section ends normally with its two charts, each made of
    [min 5 (len view)] rows of the view; when it has not, the first figure
    raises the [ValueError] of that column and nothing is plotted.  When
    the view has no score column, as the empty frame of an unavailable
    dataset has not, the section raises the [KeyError] of that column
    before plotting anything. *)
Theorem visao_geral_ranking_spec (df : DataFrame) :
  (numeric_column df "Nota IDEB 2023" = true ->
   has_column df "Município" = true ->
   exists fig_top5 fig_bottom5,
     visao_geral_ranking df
     = ([st_plotly_chart "fig_top5" fig_top5;
         st_plotly_chart "fig_bottom5" fig_bottom5], Ok tt) /\
     List.length (rows fig_top5) = Nat.min 5 (List.length (rows df)) /\
     List.length (rows fig_bottom5) = Nat.min 5 (List.length (rows df)) /\
     (forall r, In r (rows fig_top5) \/ In r (rows fig_bottom5) ->
                In r (rows df))) /\
  (numeric_column df "Nota IDEB 2023" = true ->
   has_column df "Município" = false ->
   visao_geral_ranking df = ([], Raise (ValueError "Município"))) /\
  (has_column df "Nota IDEB 2023" = false ->
   visao_geral_ranking df = ([], Raise (KeyError "Nota IDEB 2023"))).
Proof.
  split; [|split].
  - intros Hnum Hmun.
    destruct (ranking_frames df Hnum)
      as [fig1 [fig2 [H1 [H2 [C1 [C2 [L1 [L2 Hsub]]]]]]]].
    exists fig1, fig2. split; [|auto].
    rewrite (ranking_steps df fig1 fig2 H1 H2).
    rewrite (px_figure_same_header fig1 df _ C1),
            (px_figure_same_header fig2 df _ C2).
    cbn [px_figure]. rewrite (numeric_has_column _ _ Hnum), Hmun. reflexivity.
  - intros Hnum Hmun.
    destruct (ranking_frames df Hnum)
      as [fig1 [fig2 [H1 [H2 [C1 _]]]]].
    rewrite (ranking_steps df fig1 fig2 H1 H2).
    rewrite (px_figure_same_header fig1 df _ C1).
    cbn [px_figure]. rewrite (numeric_has_column _ _ Hnum), Hmun. reflexivity.
  - intros Hno.
    assert (Hi : index_of "Nota IDEB 2023" (columns df) = None).
    { destruct (index_of "Nota IDEB 2023" (columns df)) as [i|] eqn:E;
        [|reflexivity].
      rewrite (FilterFacts.has_column_index_of _ _ _ E) in Hno. discriminate. }
    unfold visao_geral_ranking, bind, lift, nlargest, sort_values.
    rewrite Hi. reflexivity.
Qed.

Lemma visao_geral_ranking_spec_witness :
  (exists fig_top5 fig_bottom5,
     visao_geral_ranking sample_scores
     = ([st_plotly_chart "fig_top5" fig_top5;
         st_plotly_chart "fig_bottom5" fig_bottom5], Ok tt) /\
     List.length (rows fig_top5) = Nat.min 5 (List.length (rows sample_scores)) /\
     List.length (rows fig_bottom5) = Nat.min 5 (List.length (rows sample_scores)) /\
     (forall r, In r (rows fig_top5) \/ In r (rows fig_bottom5) ->
                In r (rows sample_scores))) /\
  visao_geral_ranking (mkFrame ["Nota IDEB 2023"] [[Float 6]; [Null]])
  = ([], Raise (ValueError "Município")) /\
  visao_geral_ranking sample_view = ([], Raise (KeyError "Nota IDEB 2023")).
Proof.
  split; [|split].
  - apply (proj1 (visao_geral_ranking_spec sample_scores)); reflexivity.
  - apply (proj1 (proj2 (visao_geral_ranking_spec
                           (mkFrame ["Nota IDEB 2023"] [[Float 6]; [Null]]))));
      reflexivity.
  - apply (proj2 (proj2 (visao_geral_ranking_spec sample_view))). reflexivity.
Defined.

End RankingFacts.

(* ------------------------------------------------------------------ *)
(** ** The reverse dictionary of any catalog                           *)
(* ------------------------------------------------------------------ *)

Module InvertFacts.

Lemma dict_get_set (acc : dict) (v k v' : string) :
  dict_get (dict_set acc v k) v'
  = if String.eqb v' v then Some k else dict_get acc v'.
Proof.
  induction acc as [|[k0 x] acc IH]; simpl; [reflexivity|].
  destruct (String.eqb v k0) eqn:E; simpl.
  - apply String.eqb_eq in E. subst k0.
    destruct (String.eqb v' v); reflexivity.
  - rewrite IH. destruct (String.eqb v' k0) eqn:E0; [|reflexivity].
    destruct (String.eqb v' v) eqn:E1; [|reflexivity].
    apply String.eqb_eq in E0, E1. subst. now rewrite String.eqb_refl in E.
Qed.

Lemma find_value_absent (d : dict) (v : string) :
  ~ In v (map snd d) -> find (fun kv => String.eqb v (snd kv)) d = None.
Proof.
  induction d as [|[k0 v0] d IH]; simpl; [reflexivity|].
  intros H. destruct (String.eqb v v0) eqn:E.
  - apply String.eqb_eq in E. exfalso. apply H. now left.
  - apply IH. intros Hin. apply H. now right.
Qed.

(** What the comprehension holds for a label, entry by entry. *)
Lemma invert_fold (allowed : list string) (d acc : dict) (v : string) :
  NoDup (map snd d) ->
  dict_get (fold_left (fun acc kv =>
                         if existsb (String.eqb (fst kv)) allowed
                         then dict_set acc (snd kv) (fst kv)
                         else acc) d acc) v
  = match find (fun kv => String.eqb v (snd kv)) d with
    | Some kv => if existsb (String.eqb (fst kv)) allowed
                 then Some (fst kv) else dict_get acc v
    | None => dict_get acc v
    end.
Proof.
  revert acc. induction d as [|[k0 v0] d IH]; intros acc Hnd; simpl;
    [reflexivity|].
  inversion Hnd as [|? ? Hnotin Hnd']; subst. rewrite (IH _ Hnd').
  destruct (String.eqb v v0) eqn:E.
  - apply String.eqb_eq in E. subst v0.
    rewrite (find_value_absent d v Hnotin). cbn [fst snd].
    destruct (existsb (String.eqb k0) allowed); [|reflexivity].
    now rewrite dict_get_set, String.eqb_refl.
  - assert (Hacc : dict_get (if existsb (String.eqb k0) allowed
                             then dict_set acc v0 k0 else acc) v
                   = dict_get acc v).
    { destruct (existsb (String.eqb k0) allowed); [|reflexivity].
      now rewrite dict_get_set, E. }
    rewrite Hacc. reflexivity.
Qed.

Lemma dict_get_In (d : dict) (k v : string) :
  dict_get d k = Some v -> In (k, v) d.
Proof.
  induction d as [|[k0 v0] d IH]; simpl; [discriminate|].
  destruct (String.eqb k k0) eqn:E.
  - apply String.eqb_eq in E. intros H. injection H as <-. subst. now left.
  - intros H. right. now apply IH.
Qed.

Lemma unique_value_key (d : dict) (k k' v : string) :
  NoDup (map snd d) -> In (k, v) d -> In (k', v) d -> k = k'.
Proof.
  induction d as [|[k0 v0] d IH]; simpl; [contradiction|].
  intros Hnd H1 H2. inversion Hnd as [|? ? Hnotin Hnd']; subst.
  destruct H1 as [H1|H1], H2 as [H2|H2].
  - congruence.
  - injection H1 as -> ->. exfalso. apply Hnotin.
    apply in_map_iff. now exists (k', v).
  - injection H2 as -> ->. exfalso. apply Hnotin.
    apply in_map_iff. now exists (k, v).
  - now apply IH.
Qed.

(** X20. The dict comprehension of the correlation page, over any catalog
    whose display labels are pairwise distinct: the reverse dictionary
    sends the label of an admitted identifier back to that identifier,
    has no entry for the label of an identifier that is not admitted, and
    none for a text that is no label of the catalog. *)
Theorem invert_where_spec (allowed : list string) (d : dict) :
  NoDup (map snd d) ->
  (forall k v, dict_get d k = Some v ->
               dict_get (invert_where allowed d) v
               = if existsb (String.eqb k) allowed then Some k else None) /\
  (forall v, ~ In v (map snd d) -> dict_get (invert_where allowed d) v = None).
Proof.
  intros Hnd. unfold invert_where. split.
  - intros k v Hget. rewrite (invert_fold allowed d [] v Hnd).
    pose proof (dict_get_In d k v Hget) as Hin.
    destruct (find (fun kv => String.eqb v (snd kv)) d) as [[k' v']|] eqn:E.
    + apply find_some in E. destruct E as [Hin' Hv]. simpl in Hv.
      apply String.eqb_eq in Hv. subst v'.
      rewrite (unique_value_key d k k' v Hnd Hin Hin'). reflexivity.
    + exfalso. apply (find_none _ _ E) in Hin. simpl in Hin.
      now rewrite String.eqb_refl in Hin.
  - intros v Hv. rewrite (invert_fold allowed d [] v Hnd).
    now rewrite (find_value_absent d v Hv).
Qed.

Lemma friendly_names_labels_distinct : NoDup (map snd friendly_names).
Proof.
  assert (H : nodup string_dec (map snd friendly_names) = map snd friendly_names)
    by (vm_compute; reflexivity).
  rewrite <- H. apply NoDup_nodup.
Qed.

Lemma invert_where_spec_witness :
  dict_get (invert_where ["alunos_por_turma"] friendly_names)
           "Média de Alunos por Turma"
  = Some "alunos_por_turma".
Proof.
  apply (proj1 (invert_where_spec ["alunos_por_turma"] friendly_names
                                  friendly_names_labels_distinct)
               "alunos_por_turma" "Média de Alunos por Turma").
  reflexivity.
Defined.

End InvertFacts.

(* ------------------------------------------------------------------ *)
(** ** The infrastructure section as a whole                           *)
(* ------------------------------------------------------------------ *)

Module InfraSection.

(** X21. Section 'Análise de Infraestrutura' over any view, whatever the
    order in which numpy adds.  Over an empty view it writes its warning
    and computes nothing.  Over a non-empty view whose five indicator
    columns hold numbers and nulls, it writes four metrics, with the
    values of the four indicators; then, when the view has the column of
    the pupils per class, the two histograms, and ends normally; when the
    view has not that column, the first histogram raises the [ValueError]
    of that column after the four metrics. *)
Theorem analise_infraestrutura_spec (float64_sum : list float -> float)
        (df : DataFrame) :
  (empty df = true ->
   analise_infraestrutura float64_sum df
   = ([st_warning "Nenhum dado disponível para os municípios selecionados."],
      Ok tt)) /\
  (empty df = false ->
   numeric_column df "Total de Escolas" = true ->
   numeric_column df "% Escolas com Internet" = true ->
   numeric_column df "Nº Escolas c/ Lab. de Informática" = true ->
   numeric_column df "Nº Escolas c/ Quadra" = true ->
   numeric_column df "Nº Escolas c/ Acessibilidade" = true ->
   exists internet lab quadra acessibilidade,
     avg_internet float64_sum df = Ok internet /\
     avg_lab float64_sum df = Ok lab /\
     avg_quadra float64_sum df = Ok quadra /\
     avg_acessibilidade float64_sum df = Ok acessibilidade /\
     let metrics :=
       [st_metric "% Escolas com Internet" (SFloat internet);
        st_metric "% com Lab. Informática" lab;
        st_metric "% com Quadra Esportiva" quadra;
        st_metric "% com Acessibilidade" acessibilidade] in
     (has_column df "Média de Alunos por Turma" = true ->
      analise_infraestrutura float64_sum df
      = (metrics ++
         [st_plotly_chart "Distribuição de Alunos por Turma" df;
          st_plotly_chart "Distribuição de % de Escolas com Internet" df],
         Ok tt)) /\
     (has_column df "Média de Alunos por Turma" = false ->
      analise_infraestrutura float64_sum df
      = (metrics, Raise (ValueError "Média de Alunos por Turma")))).
Proof.
  split.
  - intros He. unfold analise_infraestrutura. now rewrite He.
  - intros He Ht Hi Hl Hq Ha.
    destruct (IndicatorFacts.col_sum_numeric float64_sum df _ Ht) as [escolas Hesc].
    destruct (IndicatorFacts.col_mean_numeric float64_sum df _ Hi)
      as [internet Hint].
    destruct (IndicatorFacts.facility_kpi_returns
                float64_sum "Nº Escolas c/ Lab. de Informática" avg_lab df
                (or_introl eq_refl) Ht Hl) as [lab Hlab].
    destruct (IndicatorFacts.facility_kpi_returns
                float64_sum "Nº Escolas c/ Quadra" avg_quadra df
                (or_intror (or_introl eq_refl)) Ht Hq) as [quadra Hquadra].
    destruct (IndicatorFacts.facility_kpi_returns
                float64_sum "Nº Escolas c/ Acessibilidade" avg_acessibilidade df
                (or_intror (or_intror (or_introl eq_refl))) Ht Ha)
      as [acess Hacess].
    exists internet, lab, quadra, acess.
    change (avg_internet float64_sum df = Ok internet) in Hint.
    split; [exact Hint|]. split; [exact Hlab|]. split; [exact Hquadra|].
    split; [exact Hacess|]. cbv zeta.
    unfold analise_infraestrutura. rewrite He. cbn [negb].
    unfold bind, lift, emit.
    change (total_escolas float64_sum df = Ok escolas) in Hesc.
    rewrite Hesc, Hint, Hlab, Hquadra, Hacess.
    cbn [px_figure].
    rewrite (RankingFacts.numeric_has_column _ _ Hi).
    split; intros Hcol; rewrite Hcol; reflexivity.
Qed.

Lemma analise_infraestrutura_spec_witness :
  analise_infraestrutura numpy_sum empty_frame
  = ([st_warning "Nenhum dado disponível para os municípios selecionados."],
     Ok tt) /\
  analise_infraestrutura numpy_sum sample_infra
  = ([st_metric "% Escolas com Internet" (SFloat 50);
      st_metric "% com Lab. Informática" (SFloat 50);
      st_metric "% com Quadra Esportiva" (SFloat 40);
      st_metric "% com Acessibilidade" (SFloat 30);
      st_plotly_chart "Distribuição de Alunos por Turma" sample_infra;
      st_plotly_chart "Distribuição de % de Escolas com Internet" sample_infra],
     Ok tt) /\
  analise_infraestrutura numpy_sum sample_view
  = ([st_metric "% Escolas com Internet" (SFloat 50);
      st_metric "% com Lab. Informática" (SFloat 50);
      st_metric "% com Quadra Esportiva" (SFloat 40);
      st_metric "% com Acessibilidade" (SFloat 30)],
     Raise (ValueError "Média de Alunos por Turma")).
Proof.
  split; [|split].
  - apply (proj1 (analise_infraestrutura_spec numpy_sum empty_frame)). reflexivity.
  - destruct (proj2 (analise_infraestrutura_spec numpy_sum sample_infra)
                    eq_refl eq_refl eq_refl eq_refl eq_refl eq_refl)
      as [internet [lab [quadra [acess [Hi [Hl [Hq [Ha [H _]]]]]]]]].
    rewrite (H eq_refl). clear H.
    vm_compute in Hi, Hl, Hq, Ha.
    injection Hi as <-. injection Hl as <-. injection Hq as <-. injection Ha as <-.
    reflexivity.
  - destruct (proj2 (analise_infraestrutura_spec numpy_sum sample_view)
                    eq_refl eq_refl eq_refl eq_refl eq_refl eq_refl)
      as [internet [lab [quadra [acess [Hi [Hl [Hq [Ha [_ H]]]]]]]]].
    rewrite (H eq_refl). clear H.
    vm_compute in Hi, Hl, Hq, Ha.
    injection Hi as <-. injection Hl as <-. injection Hq as <-. injection Ha as <-.
    reflexivity.
Defined.

End InfraSection.
